(** * Document cache and ingestion helper (utils/document_processor.py)

    A shallow embedding of [DocumentProcessor]: the content-hash cache, the
    scratch-file life cycle and the dispatch of [process_file], over an
    explicit model of the file system, the log and the external libraries. *)

From Stdlib Require Import String Ascii ZArith Lia.
From stdpp Require Import gmap strings list fin_maps pretty.

Local Open Scope string_scope.
Set Warnings "-register-all".

(** ** Python [str] and [bytes]

    Both are modelled as [string], a sequence of bytes; a [str] is held as
    its UTF-8 encoding, so [file_name.encode()] is the identity and
    [bytes.decode('utf-8')] is a validity check.  A [str] holding a lone
    surrogate (text a PDF parser can hand over) is held as the bytes
    ED A0..BF xx of that code point, which are not well-formed UTF-8:
    writing such a [str] to a file opened with [encoding='utf-8'] raises
    [UnicodeEncodeError]. *)

Module PyStr.

(** [s.endswith(suffix)]: some tail of [s] is [suffix]. *)
Fixpoint endswith (s suffix : string) : bool :=
  String.eqb s suffix ||
  match s with
  | EmptyString => false
  | String _ s' => endswith s' suffix
  end.

Definition lower_ascii (c : ascii) : ascii :=
  let n := N_of_ascii c in
  if (65 <=? n)%N && (n <=? 90)%N then ascii_of_N (n + 32) else c.

(** [s.lower()] on the ASCII letters.  Bytes of non-ASCII characters are
    left as they are; no non-ASCII character lowers to one of the
    characters of ".pdf" or ".txt", which is all the code tests for. *)
Fixpoint lower (s : string) : string :=
  match s with
  | EmptyString => EmptyString
  | String c s' => String (lower_ascii c) (lower s')
  end.

(** Truthiness of a [str]: the empty string is falsy. *)
Definition truthy (s : string) : bool :=
  match s with EmptyString => false | String _ _ => true end.

(** [sep.join(parts)]. *)
Fixpoint join (sep : string) (parts : list string) : string :=
  match parts with
  | [] => ""
  | [p] => p
  | p :: rest => p +:+ sep +:+ join sep rest
  end.

Fixpoint last_char (s : string) : option ascii :=
  match s with
  | EmptyString => None
  | String c EmptyString => Some c
  | String _ s' => last_char s'
  end.

(** [s] without the prefix [p], when it starts with it. *)
Fixpoint strip_prefix (p s : string) : option string :=
  match p, s with
  | EmptyString, _ => Some s
  | String a p', String b s' =>
      if Ascii.eqb a b then strip_prefix p' s' else None
  | String _ _, EmptyString => None
  end.

Fixpoint contains_char (c : ascii) (s : string) : bool :=
  match s with
  | EmptyString => false
  | String a s' => Ascii.eqb a c || contains_char c s'
  end.

(** Well-formedness of a byte sequence as UTF-8 (RFC 3629): what
    [bytes.decode('utf-8')] accepts. *)
Definition is_cont (n : N) : bool := (128 <=? n)%N && (n <=? 191)%N.

Fixpoint utf8_valid_from (fuel : nat) (bs : list N) : bool :=
  match fuel with
  | O => match bs with [] => true | _ => false end
  | S fuel' =>
      match bs with
      | [] => true
      | b0 :: r0 =>
          if (b0 <? 128)%N then utf8_valid_from fuel' r0
          else if (194 <=? b0)%N && (b0 <=? 223)%N then
            match r0 with
            | b1 :: r1 => is_cont b1 && utf8_valid_from fuel' r1
            | _ => false
            end
          else if (224 <=? b0)%N && (b0 <=? 239)%N then
            match r0 with
            | b1 :: b2 :: r2 =>
                is_cont b1 && is_cont b2
                && (if (b0 =? 224)%N then (160 <=? b1)%N else true)
                && (if (b0 =? 237)%N then (b1 <=? 159)%N else true)
                && utf8_valid_from fuel' r2
            | _ => false
            end
          else if (240 <=? b0)%N && (b0 <=? 244)%N then
            match r0 with
            | b1 :: b2 :: b3 :: r3 =>
                is_cont b1 && is_cont b2 && is_cont b3
                && (if (b0 =? 240)%N then (144 <=? b1)%N else true)
                && (if (b0 =? 244)%N then (b1 <=? 143)%N else true)
                && utf8_valid_from fuel' r3
            | _ => false
            end
          else false
      end
  end.

Fixpoint byte_values (s : string) : list N :=
  match s with
  | EmptyString => []
  | String c s' => N_of_ascii c :: byte_values s'
  end.

Definition utf8_valid (s : string) : bool :=
  let bs := byte_values s in utf8_valid_from (List.length bs) bs.

End PyStr.

(** ** Exceptions, results and the values the libraries exchange *)

Inductive ExnClass :=
  | ValueError | TypeError | OSError | UnicodeDecodeError | UnicodeEncodeError
  | JSONDecodeError | ValidationError | LibraryError | Exception.

(** An exception object: its class and [str(e)]. *)
Record PyExn := mkExn { exn_class : ExnClass; exn_str : string }.

Inductive Result (A : Type) :=
  | Ok (a : A)
  | Raise (e : PyExn).
Arguments Ok {A} a.
Arguments Raise {A} e.

(** A Python value as a chunk can hold it in its metadata: [None], [bool],
    [int], [str], [list], [tuple], a [dict] with string keys (in insertion
    order), and any other object (given by its [repr]). *)
Inductive pyvalue :=
  | PNone
  | PBool (b : bool)
  | PInt (n : Z)
  | PStr (s : string)
  | PList (items : list pyvalue)
  | PTuple (items : list pyvalue)
  | PDict (items : list (string * pyvalue))
  | PObject (repr : string).

(** A JSON value, as the text of a file denotes it and [json.load] returns
    it: null, a boolean, an integer, a string (well-formed text), an array
    and an object (members in the order of the text). *)
Inductive json :=
  | JNull
  | JBool (b : bool)
  | JInt (n : Z)
  | JStr (s : string)
  | JList (items : list json)
  | JDict (items : list (string * json)).

(** [langchain_core.documents.Document]: the chunk text, its metadata
    (page number, source path and the like) and the optional [id] of the
    chunk ([None] unless a caller sets it). *)
Record Document := mkDocument {
  page_content : string;
  metadata : list (string * pyvalue);
  doc_id : option string
}.

Fixpoint dict_get (k : string) (d : list (string * json)) : option json :=
  match d with
  | [] => None
  | (k', v) :: d' => if String.eqb k k' then Some v else dict_get k d'
  end.

(** [doc.dict()]: the fields of the chunk in the order of their
    declaration ([id] and [metadata] of the base class, then
    [page_content] and the constant [type] tag). *)
Definition Document_dict (doc : Document) : pyvalue :=
  PDict [("id", match doc_id doc with Some s => PStr s | None => PNone end);
         ("metadata", PDict (metadata doc));
         ("page_content", PStr (page_content doc));
         ("type", PStr "Document")].

(** *** What [json.dump] writes and [json.load] reads *)

(** The items of a list, each through [f], up to the first failure. *)
Definition traverse {A B : Type} (f : A -> ExnClass + B) : list A -> ExnClass + list B :=
  fix go (l : list A) : ExnClass + list B :=
    match l with
    | [] => inr []
    | x :: rest =>
        match f x with
        | inl c => inl c
        | inr y =>
            match go rest with
            | inl c => inl c
            | inr ys => inr (y :: ys)
            end
        end
    end.

(** A [str] written to a file opened with [encoding='utf-8']
    ([ensure_ascii=False] hands the text over as it is). *)
Definition encode_str (s : string) : ExnClass + string :=
  if PyStr.utf8_valid s then inr s else inl UnicodeEncodeError.

(** The JSON value that [json.dump(v, f, ensure_ascii=False, indent=2)]
    writes to a utf-8 text file, or the class of the exception that stops
    it: the encoder walks [v] in order and fails at the first [str] that
    cannot be encoded (a lone surrogate) and at the first object that is
    not JSON serializable; a [tuple] is written as an array. *)
Fixpoint to_json (v : pyvalue) : ExnClass + json :=
  match v with
  | PNone => inr JNull
  | PBool b => inr (JBool b)
  | PInt n => inr (JInt n)
  | PStr s =>
      match encode_str s with
      | inl c => inl c
      | inr s' => inr (JStr s')
      end
  | PList items =>
      match traverse to_json items with
      | inl c => inl c
      | inr js => inr (JList js)
      end
  | PTuple items =>
      match traverse to_json items with
      | inl c => inl c
      | inr js => inr (JList js)
      end
  | PDict items =>
      match traverse (fun kv : string * pyvalue =>
                        match kv with
                        | (k, x) =>
                            match encode_str k with
                            | inl c => inl c
                            | inr k' =>
                                match to_json x with
                                | inl c => inl c
                                | inr j => inr (k', j)
                                end
                            end
                        end) items with
      | inl c => inl c
      | inr js => inr (JDict js)
      end
  | PObject _ => inl TypeError
  end.

(** The Python value [json.load] builds for a JSON value: arrays become
    lists, objects dicts. *)
Fixpoint of_json (j : json) : pyvalue :=
  match j with
  | JNull => PNone
  | JBool b => PBool b
  | JInt n => PInt n
  | JStr s => PStr s
  | JList items => PList (List.map of_json items)
  | JDict items =>
      PDict (List.map (fun kv : string * json =>
                         match kv with (k, x) => (k, of_json x) end) items)
  end.

(** The values that JSON can hold as they are: no tuple, no foreign
    object, every [str] and key encodable. *)
Fixpoint json_native (v : pyvalue) : bool :=
  match v with
  | PNone | PBool _ | PInt _ => true
  | PStr s => PyStr.utf8_valid s
  | PList items => forallb json_native items
  | PTuple _ => false
  | PDict items =>
      forallb (fun kv : string * pyvalue =>
                 match kv with (k, x) => PyStr.utf8_valid k && json_native x end) items
  | PObject _ => false
  end.

(** The library failures whose message the code only formats into a log
    line or into the wrapping exception. *)
Inductive LibFailure :=
  | BadUtf8 (data : string)
  | BadJson (text : string)
  | CutShortJson
  | NotSerializable (obj : pyvalue)
  | BadDocument (arg : json)
  | NotIterable (data : json)
  | NoSuchFile (path : string).

(** What a file holds: the text of a JSON value (what a completed
    [json.dump] wrote, or any text [json.load] reads as [j]), other bytes,
    or what a write that failed after the file was opened left behind
    (nothing, or a proper prefix of what was being written).  [json.load]
    rejects the last two. *)
Inductive FileData :=
  | JsonText (j : json)
  | Raw (data : string)
  | Partial.

Inductive Level := DEBUG | INFO | WARNING | ERROR.

Inductive LogRecord :=
  | Log (lvl : Level) (msg : string)
  | Executing (fn : string)
  | Completed (fn : string)
  | Failed (fn : string) (e : PyExn).

(** The effects of a call on the cache store, the scratch directory and
    the parser: a record read, a record written in full, a file removed, a
    scratch file brought into being (its [open] returned) and the parser
    invoked. *)
Inductive IoEvent :=
  | CacheRead (path : string)
  | CacheWritten (path : string)
  | CacheRemoved (path : string)
  | ScratchCreated (path : string)
  | ScratchRemoved (path : string)
  | ParserInvoked (path : string).

(** The operations the operating system can refuse: opening a file for
    reading, opening it for writing (which creates or truncates it),
    writing the content to the open file (a full disk, a quota, an I/O
    error at the write or at the close), and removing it. *)
Inductive FsOp := OpenRead | OpenWrite | WriteData | Unlink.

(** The world a call runs in.  [fault op path] is the exception the
    operating system raises for [op] on [path], if any; no operation of the
    code changes it.  [log] holds every logger call with its level, [io]
    the effects, both newest entry first; the code reads neither. *)
Record World := mkWorld {
  fs : gmap string FileData;
  fault : FsOp -> string -> option PyExn;
  log : list LogRecord;
  io : list IoEvent;
  uuid_seed : nat
}.

Definition set_fs (f : gmap string FileData) (w : World) : World :=
  mkWorld f (fault w) (log w) (io w) (uuid_seed w).
Definition add_log (r : LogRecord) (w : World) : World :=
  mkWorld (fs w) (fault w) (r :: log w) (io w) (uuid_seed w).
Definition add_io (e : IoEvent) (w : World) : World :=
  mkWorld (fs w) (fault w) (log w) (e :: io w) (uuid_seed w).
Definition next_seed (w : World) : World :=
  mkWorld (fs w) (fault w) (log w) (io w) (S (uuid_seed w)).

(** The entries a call added to a newest-first list: what [after] holds
    in front of [before]. *)
Definition since {A} (before after : list A) : list A :=
  take (List.length after - List.length before) after.

(** The effects and the log records of a call that took [w] to [w']. *)
Definition effects (w w' : World) : list IoEvent := since (io w) (io w').
Definition logged (w w' : World) : list LogRecord := since (log w) (log w').

(** ** Computations: state passing with exceptions *)

Definition M (A : Type) : Type := World -> Result A * World.

Definition ret {A} (a : A) : M A := fun w => (Ok a, w).

Definition raise {A} (e : PyExn) : M A := fun w => (Raise e, w).

Definition bind {A B} (m : M A) (k : A -> M B) : M B :=
  fun w =>
    match m w with
    | (Ok a, w') => k a w'
    | (Raise e, w') => (Raise e, w')
    end.

Notation "'do' x <- m ; k" := (bind m (fun x => k))
  (at level 10, x at level 100, m at level 100, k at level 200).
Notation "'do' m ; k" := (bind m (fun _ => k))
  (at level 10, m at level 100, k at level 200).

(** [try: m  except Exception as e: handler e]. *)
Definition try_except {A} (m : M A) (handler : PyExn -> M A) : M A :=
  fun w =>
    match m w with
    | (Ok a, w') => (Ok a, w')
    | (Raise e, w') => handler e w'
    end.

(** [try: m  finally: fin]: [fin] runs on every exit of [m]; an exception
    of [fin] replaces the outcome of [m]. *)
Definition try_finally {A} (m : M A) (fin : M unit) : M A :=
  fun w =>
    match m w with
    | (r, w') =>
        match fin w' with
        | (Ok _, w'') => (r, w'')
        | (Raise e, w'') => (Raise e, w'')
        end
    end.

Definition logger (lvl : Level) (msg : string) : M unit :=
  fun w => (Ok tt, add_log (Log lvl msg) w).

Definition trace (r : LogRecord) : M unit :=
  fun w => (Ok tt, add_log r w).

Definition did (e : IoEvent) : M unit :=
  fun w => (Ok tt, add_io e w).

Definition lift {A} (r : Result A) : M A := fun w => (r, w).

(** [Path(p).exists()]. *)
Definition path_exists (p : string) : M bool :=
  fun w => (Ok (match fs w !! p with Some _ => true | None => false end), w).

(** The fields of a [DocumentProcessor]; [text_splitter] stands for
    [self.text_splitter.split_documents], configured from
    [config.settings]. *)
Record DocumentProcessor := mkProcessor {
  cache_dir : string;
  temp_dir : string;
  max_workers : nat;
  text_splitter : list Document -> list Document
}.

(** The first argument of [process_file], by what the code asks of it: an
    object with [getvalue] and [name] (a Streamlit upload), a [bytes]
    object, or anything else. *)
Inductive PyObject :=
  | UploadedFile (value : string) (name : string)
  | BytesObject (content : string)
  | OtherObject.

Definition has_getvalue (o : PyObject) : bool :=
  match o with UploadedFile _ _ => true | _ => false end.

(** [Union[str, List[Document]]]. *)
Inductive Output :=
  | Text (s : string)
  | Chunks (docs : list Document).

(** ** A concrete setting for the examples

    Stand-ins for the libraries: a checksum in place of MD5, a counter in
    place of random uuids, a parser that takes the bytes after a "%PDF"
    header as the text of one page, and a splitter that makes one chunk of
    every page with text. *)

Module Sample.

Definition hex_digit (n : N) : ascii :=
  if (n <? 10)%N then ascii_of_N (48 + n) else ascii_of_N (87 + n).

Fixpoint hex (width : nat) (n : N) : string :=
  match width with
  | O => ""
  | S width' => hex width' (n / 16) +:+ String (hex_digit (n mod 16)) ""
  end.

Fixpoint checksum (acc : N) (data : string) : N :=
  match data with
  | EmptyString => acc
  | String c rest => checksum ((acc * 33 + N_of_ascii c) mod 2 ^ 128)%N rest
  end.

Definition digest (data : string) : string := hex 32 (checksum 5381 data).

Definition uuid_hex (n : nat) : string := hex 32 (N.of_nat n).

Definition load_pdf (path : string) (file : option FileData) : Result (list Document) :=
  match file with
  | Some (Raw data) =>
      match PyStr.strip_prefix "%PDF" data with
      | Some text =>
          Ok [mkDocument text [("source", PStr path); ("page", PInt 0)] None]
      | None => Raise (mkExn LibraryError "invalid pdf header")
      end
  | _ => Raise (mkExn ValueError "not a valid file")
  end.

Definition split (documents : list Document) : list Document :=
  List.filter (fun d => PyStr.truthy (page_content d)) documents.

Definition message (f : LibFailure) : string :=
  match f with
  | BadUtf8 _ => "invalid utf-8"
  | BadJson _ => "invalid json"
  | CutShortJson => "unexpected end of json"
  | NotSerializable _ => "not serializable"
  | BadDocument _ => "invalid document"
  | NotIterable _ => "not iterable"
  | NoSuchFile _ => "no such file"
  end.

Definition processor : DocumentProcessor := mkProcessor ".cache" "temp" 4 split.

Definition no_fault (op : FsOp) (path : string) : option PyExn := None.

Definition denied : PyExn := mkExn OSError "permission denied".

Definition world (files : gmap string FileData)
    (faults : FsOp -> string -> option PyExn) : World :=
  mkWorld files faults [] [] 0.

Definition empty_world : World := world ∅ no_fault.

(** Every unlink is refused (a file still held open, a read-only
    directory). *)
Definition unlink_denied (op : FsOp) (path : string) : option PyExn :=
  match op with Unlink => Some denied | _ => None end.

(** The unlink of [path], and of no other file, is refused. *)
Definition unlink_denied_at (path : string) (op : FsOp) (p : string) : option PyExn :=
  match op with
  | Unlink => if String.eqb p path then Some denied else None
  | _ => None
  end.



Definition no_space : PyExn := mkExn OSError "no space left on device".

(** Files can be created, and no content written to them (a full disk). *)
Definition disk_full (op : FsOp) (path : string) : option PyExn :=
  match op with WriteData => Some no_space | _ => None end.

(** A page whose text is one lone surrogate (U+D800), and the bytes the
    sample parser reads it from. *)
Definition lone_surrogate : string :=
  String (ascii_of_N 237) (String (ascii_of_N 160) (String (ascii_of_N 128) "")).

Definition surrogate_pdf : string := "%PDF" +:+ lone_surrogate.

End Sample.

Section DocumentProcessor.

(** The libraries the module calls, as parameters:
    [hashlib.md5(data).hexdigest()], [uuid.uuid4().hex] (drawn from the
    world's seed), [PyPDFLoader(path).load()] (on the path and what the
    file system holds there) and the text of a library exception. *)
Variable md5_hexdigest : string -> string.
Variable uuid4_hex : nat -> string.
Variable PyPDFLoader_load : string -> option FileData -> Result (list Document).
Variable lib_msg : LibFailure -> string.

(** *** The operating system and the libraries as computations *)

(** [open(p, 'r')] and reading the file. *)
Definition open_read (p : string) : M FileData :=
  fun w =>
    match fault w OpenRead p with
    | Some e => (Raise e, w)
    | None =>
        match fs w !! p with
        | Some d => (Ok d, w)
        | None => (Raise (mkExn OSError (lib_msg (NoSuchFile p))), w)
        end
    end.

(** [open(p, 'w')] (or ['wb']): the file is created, or cut to length
    zero; a refused open leaves the file system as it is. *)
Definition open_write (p : string) : M unit :=
  fun w =>
    match fault w OpenWrite p with
    | Some e => (Raise e, w)
    | None => (Ok tt, set_fs (<[p := Raw ""]> (fs w)) w)
    end.

(** [f.write(data)] on the file opened at [p], up to the close at the end
    of the [with] block: a failure leaves the file cut short. *)
Definition write_bytes (p : string) (data : string) : M unit :=
  fun w =>
    match fault w WriteData p with
    | Some e => (Raise e, set_fs (<[p := Partial]> (fs w)) w)
    | None => (Ok tt, set_fs (<[p := Raw data]> (fs w)) w)
    end.

(** [json.dump(obj, f, ensure_ascii=False, indent=2)] on the file opened
    at [p], up to the close at the end of the [with] block.  The encoder
    hands the text over piece by piece: when it stops at a value it cannot
    write, and when the operating system fails the write, the file keeps
    the pieces written so far.  Where both would happen the encoder's
    exception is the one raised, the pieces waiting in the buffer until
    the close. *)
Definition json_dump (obj : pyvalue) (p : string) : M unit :=
  fun w =>
    match to_json obj with
    | inl c =>
        (Raise (mkExn c (lib_msg (NotSerializable obj))),
         set_fs (<[p := Partial]> (fs w)) w)
    | inr j =>
        match fault w WriteData p with
        | Some e => (Raise e, set_fs (<[p := Partial]> (fs w)) w)
        | None => (Ok tt, set_fs (<[p := JsonText j]> (fs w)) w)
        end
    end.


(** [os.unlink(p)] and [Path.unlink()]. *)
Definition os_unlink (p : string) : M unit :=
  fun w =>
    match fault w Unlink p with
    | Some e => (Raise e, w)
    | None =>
        match fs w !! p with
        | Some _ => (Ok tt, set_fs (delete p (fs w)) w)
        | None => (Raise (mkExn OSError (lib_msg (NoSuchFile p))), w)
        end
    end.

(** [json.load(f)]. *)
Definition json_load (d : FileData) : M json :=
  match d with
  | JsonText j => ret j
  | Raw text => raise (mkExn JSONDecodeError (lib_msg (BadJson text)))
  | Partial => raise (mkExn JSONDecodeError (lib_msg CutShortJson))
  end.

(** The [metadata] argument of [Document]: a dict, empty by default. *)
Definition kwargs_metadata (kw : list (string * json)) : option (list (string * pyvalue)) :=
  match dict_get "metadata" kw with
  | None => Some []
  | Some (JDict md) =>
      Some (List.map (fun kv : string * json =>
                        match kv with (k, x) => (k, of_json x) end) md)
  | Some _ => None
  end.

(** The [id] argument: [None] by default, a string, or a number, which
    the field coerces to its decimal text. *)
Definition kwargs_id (kw : list (string * json)) : option (option string) :=
  match dict_get "id" kw with
  | None => Some None
  | Some JNull => Some None
  | Some (JStr s) => Some (Some s)
  | Some (JInt n) => Some (Some (pretty n))
  | Some _ => None
  end.

(** The [type] argument: the literal "Document", also by default. *)
Definition kwargs_type_ok (kw : list (string * json)) : bool :=
  match dict_get "type" kw with
  | None => true
  | Some (JStr t) => String.eqb t "Document"
  | Some _ => false
  end.

(** [Document] built from the keyword arguments [doc].  The call itself
    needs a dict with a [page_content] and without a key [self] (which
    would bind the first parameter twice); the fields are then validated:
    [page_content] a string, [metadata] a dict, [id] a string, a number
    or [None], [type] the literal "Document".  Other keys are ignored. *)
Definition Document_of_kwargs (doc : json) : Result Document :=
  match doc with
  | JDict kw =>
      match dict_get "self" kw, dict_get "page_content" kw with
      | Some _, _ => Raise (mkExn TypeError (lib_msg (BadDocument doc)))
      | None, None => Raise (mkExn TypeError (lib_msg (BadDocument doc)))
      | None, Some page_content =>
          match page_content, kwargs_metadata kw, kwargs_id kw, kwargs_type_ok kw with
          | JStr text, Some md, Some id, true => Ok (mkDocument text md id)
          | _, _, _, _ => Raise (mkExn ValidationError (lib_msg (BadDocument doc)))
          end
      end
  | _ => Raise (mkExn TypeError (lib_msg (BadDocument doc)))
  end.

Fixpoint Documents_of_items (items : list json) : Result (list Document) :=
  match items with
  | [] => Ok []
  | doc :: rest =>
      match Document_of_kwargs doc with
      | Raise e => Raise e
      | Ok d =>
          match Documents_of_items rest with
          | Raise e => Raise e
          | Ok ds => Ok (d :: ds)
          end
      end
  end.

(** The comprehension building a [Document] for each [doc] in [data]: a
    list gives its items, a dict its keys and a string its characters
    (none of which is a mapping); the other values are not iterable. *)
Definition Documents_of_data (data : json) : Result (list Document) :=
  match data with
  | JList items => Documents_of_items items
  | JDict [] => Ok []
  | JDict ((k, _) :: _) => Raise (mkExn TypeError (lib_msg (BadDocument (JStr k))))
  | JStr "" => Ok []
  | JStr s => Raise (mkExn TypeError (lib_msg (BadDocument (JStr s))))
  | _ => Raise (mkExn TypeError (lib_msg (NotIterable data)))
  end.

(** [bytes.decode('utf-8')]. *)
Definition decode_utf8 (data : string) : Result string :=
  if PyStr.utf8_valid data then Ok data
  else Raise (mkExn UnicodeDecodeError (lib_msg (BadUtf8 data))).

(** [uuid.uuid4().hex]. *)
Definition uuid4 : M string :=
  fun w => (Ok (uuid4_hex (uuid_seed w)), next_seed w).

(** [PyPDFLoader(path).load()]. *)
Definition PyPDFLoader (path : string) : M (list Document) :=
  fun w => (PyPDFLoader_load path (fs w !! path), add_io (ParserInvoked path) w).

(** *** The decorators *)

(** Modelled from the spec: [utils.decorators.log_execution] is not under
    src/.  The spec calls the decorators cross-cutting logging and error
    wrapping around each operation: this one records the start and the
    end of the call and hands its result, or its exception, through. *)
Definition log_execution {A} (fn : string) (m : M A) : M A :=
  do trace (Executing fn);
  do r <- m;
  do trace (Completed fn);
  ret r.

(** Modelled from the spec: [utils.decorators.error_handler] is not under
    src/.  By the spec a failure propagates to the caller after logging:
    the exception is recorded and raised again. *)
Definition error_handler {A} (fn : string) (m : M A) : M A :=
  try_except m (fun e => do trace (Failed fn e); raise e).

(** *** The methods of [DocumentProcessor] *)

Definition path_join (dir name : string) : string := dir +:+ "/" +:+ name.

(** 2. [_get_cache_path]. *)
Definition cache_key (file_content file_name : string) : string :=
  md5_hexdigest (file_content +:+ file_name).

Definition _get_cache_path (self : DocumentProcessor)
    (file_content file_name : string) : string :=
  path_join (cache_dir self) (cache_key file_content file_name +:+ ".json").

(** 3. [_load_from_cache] ([self] is not used by it). *)
Definition _load_from_cache (cache_path : string) : M (option (list Document)) :=
  try_except
    (do present <- path_exists cache_path;
     if present : bool then
       do f <- open_read cache_path;
       do did (CacheRead cache_path);
       do data <- json_load f;
       do docs <- lift (Documents_of_data data);
       ret (Some docs)
     else ret None)
    (fun e =>
       do logger WARNING ("从缓存加载失败: " +:+ exn_str e);
       ret None).

(** What a lookup at [path] finds in world [w]: no file, a file the
    lookup fails on (with the exception it logs), or a list of chunks. *)
Inductive CacheState :=
  | Absent
  | Unusable (e : PyExn)
  | Usable (docs : list Document).

Definition cache_state (w : World) (path : string) : CacheState :=
  match fs w !! path with
  | None => Absent
  | Some f =>
      match fault w OpenRead path with
      | Some e => Unusable e
      | None =>
          match f with
          | Raw text => Unusable (mkExn JSONDecodeError (lib_msg (BadJson text)))
          | Partial => Unusable (mkExn JSONDecodeError (lib_msg CutShortJson))
          | JsonText data =>
              match Documents_of_data data with
              | Ok docs => Usable docs
              | Raise e => Unusable e
              end
          end
      end
  end.

(** 4. [_save_to_cache] ([self] is not used by it). *)
Definition _save_to_cache (cache_path : string) (documents : list Document) : M unit :=
  try_except
    (let docs_data := List.map Document_dict documents in
     do open_write cache_path;
     do json_dump (PList docs_data) cache_path;
     did (CacheWritten cache_path))
    (fun e => logger WARNING ("保存到缓存失败: " +:+ exn_str e)).

(** 5. [_create_temp_file]. *)
Definition temp_file_path (self : DocumentProcessor) (hex suffix : string) : string :=
  let temp_filename := "temp_" +:+ hex +:+ suffix in
  path_join (temp_dir self) temp_filename.

Definition _create_temp_file (self : DocumentProcessor)
    (file_content suffix : string) : M string :=
  do hex <- uuid4;
  let temp_path := temp_file_path self hex suffix in
  do open_write temp_path;
  do did (ScratchCreated temp_path);
  do write_bytes temp_path file_content;
  do logger DEBUG ("创建临时文件: " +:+ temp_path);
  ret temp_path.

(** 6. [_cleanup_temp_file]. *)
Definition _cleanup_temp_file (temp_path : string) : M unit :=
  try_except
    (do present <- path_exists temp_path;
     if present : bool then
       do os_unlink temp_path;
       do did (ScratchRemoved temp_path);
       logger DEBUG ("已清理临时文件: " +:+ temp_path)
     else ret tt)
    (fun e =>
       logger WARNING ("清理临时文件失败 " +:+ temp_path +:+ ": " +:+ exn_str e)).

(** 7. [_process_pdf], without its decorators.  [temp_path] is bound only
    when [_create_temp_file] returns, so the [finally] clause has a file
    to clean exactly on that branch: when [_create_temp_file] raises,
    also after it opened the file, [temp_path] is still [None] and
    nothing is cleaned. *)
Definition process_pdf_parse (self : DocumentProcessor)
    (cache_path temp_path : string) : M (list Document) :=
  do documents <- PyPDFLoader temp_path;
  let split_docs := text_splitter self documents in
  do (match split_docs with
      | [] => ret tt
      | _ :: _ => _save_to_cache cache_path split_docs
      end);
  ret split_docs.

Definition log_and_reraise {A} (e : PyExn) : M A :=
  do logger ERROR ("处理PDF文件失败: " +:+ exn_str e);
  raise e.

Definition _process_pdf_body (self : DocumentProcessor)
    (file_content file_name : string) : M (list Document) :=
  let cache_path := _get_cache_path self file_content file_name in
  do cached_docs <- _load_from_cache cache_path;
  match cached_docs with
  | Some docs =>
      do logger INFO ("从缓存加载文件: " +:+ file_name);
      ret docs
  | None =>
      do logger INFO ("处理文件: " +:+ file_name);
      fun w =>
        match _create_temp_file self file_content ".pdf" w with
        | (Raise e, w1) => log_and_reraise e w1
        | (Ok temp_path, w1) =>
            try_finally
              (try_except (process_pdf_parse self cache_path temp_path)
                          log_and_reraise)
              (_cleanup_temp_file temp_path) w1
        end
  end.

Definition _process_pdf (self : DocumentProcessor)
    (file_content file_name : string) : M (list Document) :=
  error_handler "_process_pdf"
    (log_execution "_process_pdf" (_process_pdf_body self file_content file_name)).

(** The entries of directory [dir]: the paths [dir/name] with no
    further separator in [name]. *)
Definition entry_of (dir : string) (p : string) : option string :=
  match PyStr.strip_prefix (dir +:+ "/") p with
  | Some name => if PyStr.contains_char "/" name then None else Some name
  | None => None
  end.

(** [dir.glob("*.json")]. *)
Definition glob_json_match (dir p : string) : bool :=
  match entry_of dir p with
  | Some name => PyStr.endswith name ".json"
  | None => false
  end.

Definition glob_json (dir : string) : M (list string) :=
  fun w => (Ok (List.filter (glob_json_match dir) (map_to_list (fs w)).*1), w).

(** [dir.iterdir()], every entry being a regular file. *)
Definition iterdir (dir : string) : M (list string) :=
  fun w =>
    (Ok (List.filter (fun p => bool_decide (is_Some (entry_of dir p)))
                     (map_to_list (fs w)).*1), w).

(** [for file in files: file.unlink()], recording [ev file]. *)
Fixpoint unlink_each (ev : string -> IoEvent) (files : list string) : M unit :=
  match files with
  | [] => ret tt
  | file :: rest =>
      do os_unlink file;
      do did (ev file);
      unlink_each ev rest
  end.

(** 8. [clear_cache]. *)
Definition clear_cache (self : DocumentProcessor) : M unit :=
  try_except
    (do files <- glob_json (cache_dir self);
     do unlink_each CacheRemoved files;
     logger INFO "缓存已清除")
    (fun e =>
       do logger ERROR ("清除缓存失败: " +:+ exn_str e);
       raise e).

(** 9. [clear_temp_files]; the directory itself always exists. *)
Definition clear_temp_files (self : DocumentProcessor) : M unit :=
  try_except
    (do files <- iterdir (temp_dir self);
     do unlink_each ScratchRemoved files;
     logger INFO ("已清理临时目录: " +:+ temp_dir self))
    (fun e =>
       do logger ERROR ("清理临时文件失败: " +:+ exn_str e);
       raise e).

Definition invalid_arguments : PyExn :=
  mkExn ValueError "参数错误：需要提供有效的文件对象或文件内容和文件名".

(** Lines 214-222: the content and the name the call works on. *)
Definition resolve_input (uploaded_file_or_content : PyObject)
    (file_name : option string) : Result (string * string) :=
  match uploaded_file_or_content with
  | UploadedFile value name => Ok (value, name)
  | BytesObject content =>
      match file_name with
      | Some name =>
          if PyStr.truthy name then Ok (content, name)
          else Raise invalid_arguments
      | None => Raise invalid_arguments
      end
  | OtherObject => Raise invalid_arguments
  end.

(** 10. [process_file], without its decorators. *)
Definition process_file_body (self : DocumentProcessor)
    (uploaded_file_or_content : PyObject) (file_name : option string) : M Output :=
  try_except
    (do input <- lift (resolve_input uploaded_file_or_content file_name);
     let file_content := input.1 in
     let file_name := input.2 in
     if PyStr.endswith (PyStr.lower file_name) ".pdf" then
       do docs <- _process_pdf self file_content file_name;
       if has_getvalue uploaded_file_or_content then
         ret (Text (PyStr.join (String "010" (String "010" "")) (List.map page_content docs)))
       else ret (Chunks docs)
     else if PyStr.endswith (PyStr.lower file_name) ".txt" then
       do text <- lift (decode_utf8 file_content);
       ret (Text text)
     else ret (Text ("不支持的文件类型: " +:+ file_name)))
    (fun e =>
       do logger ERROR ("处理文件失败: " +:+ exn_str e);
       raise (mkExn Exception ("处理文件失败: " +:+ exn_str e))).

Definition process_file (self : DocumentProcessor)
    (uploaded_file_or_content : PyObject) (file_name : option string) : M Output :=
  error_handler "process_file"
    (log_execution "process_file"
       (process_file_body self uploaded_file_or_content file_name)).

(** ** Properties *)

Ltac wsimpl :=
  cbn [fs fault log io uuid_seed set_fs add_log add_io next_seed fst snd].

Ltac munfold :=
  unfold log_execution, error_handler, log_and_reraise, logger, trace, did, lift,
    path_exists, open_read, open_write, write_bytes, json_dump, os_unlink, json_load,
    uuid4, PyPDFLoader,
    try_finally, try_except, bind, raise, ret.

Ltac use_eqs :=
  repeat match goal with
  | H : fault _ _ _ = _ |- _ => rewrite H
  | H : fs _ !! _ = _ |- _ => rewrite H
  | H : PyPDFLoader_load _ _ = _ |- _ => rewrite H
  | H : text_splitter _ _ = _ |- _ => rewrite H
  | H : Documents_of_data _ = _ |- _ => rewrite H
  | H : to_json _ = _ |- _ => rewrite H
  end.

Ltac map_simpl :=
  repeat first
    [ rewrite lookup_insert_eq
    | rewrite lookup_delete_eq
    | rewrite lookup_insert_ne by congruence
    | rewrite lookup_delete_ne by congruence ].

Ltac split_match :=
  match goal with
  | |- context [match ?x with _ => _ end] =>
      lazymatch x with
      | context [match _ with _ => _ end] => fail
      | _ => destruct x eqn:?
      end
  end.

Ltac exec1 := repeat (wsimpl; use_eqs; map_simpl).
Ltac exec := repeat (exec1; try split_match).

(** *** Strings *)

Lemma endswith_refl (s : string) : PyStr.endswith s s = true.
Proof. destruct s; cbn [PyStr.endswith]; rewrite String.eqb_refl; reflexivity. Qed.

Lemma endswith_length (s suffix : string) :
  PyStr.endswith s suffix = true -> String.length suffix <= String.length s.
Proof.
  induction s as [|c s IH]; cbn [PyStr.endswith]; intros H.
  - apply orb_true_iff in H as [H|H]; [|discriminate].
    apply String.eqb_eq in H. subst. reflexivity.
  - apply orb_true_iff in H as [H|H].
    + apply String.eqb_eq in H. subst. reflexivity.
    + apply IH in H. cbn [String.length]. lia.
Qed.

Lemma endswith_lower (s suffix : string) :
  PyStr.endswith s suffix = true ->
  PyStr.endswith (PyStr.lower s) (PyStr.lower suffix) = true.
Proof.
  induction s as [|c s IH]; cbn [PyStr.endswith PyStr.lower]; intros H.
  - apply orb_true_iff in H as [H|H]; [|discriminate].
    apply String.eqb_eq in H. subst. reflexivity.
  - apply orb_true_iff in H as [H|H].
    + apply String.eqb_eq in H. subst. cbn [PyStr.lower].
      rewrite String.eqb_refl. reflexivity.
    + rewrite (IH H). apply orb_true_r.
Qed.

Lemma endswith_unique (s a b : string) :
  PyStr.endswith s a = true -> PyStr.endswith s b = true ->
  String.length a = String.length b -> a = b.
Proof.
  induction s as [|c s IH]; cbn [PyStr.endswith]; intros Ha Hb Hlen.
  - apply orb_true_iff in Ha as [Ha|Ha]; [|discriminate].
    apply orb_true_iff in Hb as [Hb|Hb]; [|discriminate].
    apply String.eqb_eq in Ha, Hb. congruence.
  - apply orb_true_iff in Ha as [Ha|Ha]; apply orb_true_iff in Hb as [Hb|Hb].
    + apply String.eqb_eq in Ha, Hb. congruence.
    + apply String.eqb_eq in Ha. subst a. apply endswith_length in Hb.
      cbn [String.length] in Hlen. lia.
    + apply String.eqb_eq in Hb. subst b. apply endswith_length in Ha.
      cbn [String.length] in Hlen. lia.
    + exact (IH Ha Hb Hlen).
Qed.

Lemma endswith_truthy (s suffix : string) :
  PyStr.endswith s suffix = true -> PyStr.truthy suffix = true -> PyStr.truthy s = true.
Proof.
  intros H Hs. destruct s; [|reflexivity].
  apply endswith_length in H. destruct suffix; [discriminate|cbn in H; lia].
Qed.

Lemma txt_is_not_pdf (file_name : string) :
  PyStr.endswith file_name ".txt" = true ->
  PyStr.endswith (PyStr.lower file_name) ".txt" = true
  /\ PyStr.endswith (PyStr.lower file_name) ".pdf" = false.
Proof.
  intros H. apply endswith_lower in H. change (PyStr.lower ".txt") with ".txt" in H.
  split; [exact H|].
  destruct (PyStr.endswith (PyStr.lower file_name) ".pdf") eqn:E; [|reflexivity].
  pose proof (endswith_unique _ _ _ H E eq_refl). discriminate.
Qed.

(** C7.  Raw bytes holding the UTF-8 encoding of "hello" under a name
    ending in ".txt": [process_file] returns the string "hello"; the file
    system, the trace of cache, scratch and parser effects and the uuid
    seed are as before the call, only the log has grown. *)
Theorem process_file_txt_hello (self : DocumentProcessor) (file_name : string) (w : World) :
  PyStr.endswith file_name ".txt" = true ->
  exists w',
    process_file self (BytesObject "hello") (Some file_name) w = (Ok (Text "hello"), w')
    /\ fs w' = fs w /\ io w' = io w /\ uuid_seed w' = uuid_seed w.
Proof.
  intros Htxt.
  destruct (txt_is_not_pdf _ Htxt) as [Ht Hp].
  pose proof (endswith_truthy _ _ Htxt eq_refl) as Hname.
  unfold process_file, process_file_body, resolve_input. rewrite Hname.
  munfold. cbn [fst snd]. rewrite Hp, Ht.
  change (decode_utf8 "hello") with (@Ok string "hello").
  eexists. split; [reflexivity|]. wsimpl. auto.
Qed.

(** C6.  A well-formed input (an upload, or bytes with a non-empty name)
    whose name, lowered, ends neither in ".pdf" nor in ".txt":
    [process_file] returns the unsupported-type string naming the file and
    raises nothing; nothing but the log changes. *)
Theorem process_file_unsupported (self : DocumentProcessor) (arg : PyObject)
    (file_name_arg : option string) (content file_name : string) (w : World) :
  arg = UploadedFile content file_name
  \/ (arg = BytesObject content /\ file_name_arg = Some file_name /\ file_name <> "") ->
  PyStr.endswith (PyStr.lower file_name) ".pdf" = false ->
  PyStr.endswith (PyStr.lower file_name) ".txt" = false ->
  exists w',
    process_file self arg file_name_arg w
    = (Ok (Text ("不支持的文件类型: " +:+ file_name)), w')
    /\ fs w' = fs w /\ io w' = io w /\ uuid_seed w' = uuid_seed w.
Proof.
  intros Harg Hp Ht.
  assert (resolve_input arg file_name_arg = Ok (content, file_name)) as Hin.
  { destruct Harg as [->|(-> & -> & Hne)]; [reflexivity|].
    cbn [resolve_input]. destruct file_name; [congruence|reflexivity]. }
  unfold process_file, process_file_body. rewrite Hin.
  munfold. cbn [fst snd]. rewrite Hp, Ht.
  eexists. split; [reflexivity|]. wsimpl. auto.
Qed.

(** C8.  An argument that is neither an upload nor bytes with a non-empty
    name: [process_file] raises at once.  The [ValueError] of the argument
    check reaches the caller wrapped by the method's own handler; no
    parser, cache or scratch effect precedes it. *)
Theorem process_file_invalid_input (self : DocumentProcessor) (arg : PyObject)
    (file_name_arg : option string) (w : World) :
  arg = OtherObject
  \/ (exists content, arg = BytesObject content
                      /\ (file_name_arg = None \/ file_name_arg = Some "")) ->
  exists w',
    process_file self arg file_name_arg w
    = (Raise (mkExn Exception ("处理文件失败: " +:+ exn_str invalid_arguments)), w')
    /\ fs w' = fs w /\ io w' = io w /\ uuid_seed w' = uuid_seed w.
Proof.
  intros Harg.
  assert (resolve_input arg file_name_arg = Raise invalid_arguments) as Hin.
  { destruct Harg as [->|(content & -> & [->| ->])]; reflexivity. }
  unfold process_file, process_file_body. rewrite Hin.
  munfold. cbn [fst snd].
  eexists. split; [reflexivity|]. wsimpl. auto.
Qed.

(** *** Entries added by a call *)

Lemma since_app {A} (pre l : list A) : since l (pre ++ l) = pre.
Proof.
  unfold since. rewrite length_app.
  replace (List.length pre + List.length l - List.length l) with (List.length pre) by lia.
  apply take_app_length.
Qed.

Lemma since_refl {A} (l : list A) : since l l = [].
Proof. exact (since_app [] l). Qed.

Ltac prefix_of A l' l :=
  lazymatch l' with
  | l => constr:(@nil A)
  | ?x :: ?r => let p := prefix_of A r l in constr:(x :: p)
  end.

Ltac since_simpl :=
  unfold effects, logged; wsimpl;
  repeat match goal with
  | |- context [@since ?A ?l ?l'] =>
      let p := prefix_of A l' l in
      change (@since A l l') with (@since A l (p ++ l)); rewrite (@since_app A p l)
  end.

(** *** Paths *)

Lemma last_char_app (x y : string) (c : ascii) :
  PyStr.last_char y = Some c -> PyStr.last_char (x +:+ y) = Some c.
Proof.
  intros Hy. induction x as [|a x IH]; [exact Hy|].
  change (String a x +:+ y) with (String a (x +:+ y)).
  destruct (x +:+ y) eqn:E; [discriminate IH|exact IH].
Qed.

Lemma temp_path_not_cache_path (self : DocumentProcessor) (hex key : string) :
  temp_file_path self hex ".pdf" <> path_join (cache_dir self) (key +:+ ".json").
Proof.
  intros E. apply (f_equal PyStr.last_char) in E. unfold temp_file_path, path_join in E.
  rewrite (last_char_app _ _ "f") in E.
  2:{ repeat first [reflexivity | apply last_char_app]. }
  rewrite (last_char_app _ _ "n") in E.
  2:{ repeat first [reflexivity | apply last_char_app]. }
  discriminate.
Qed.

Ltac unfold_process_pdf :=
  unfold _process_pdf, _process_pdf_body, _load_from_cache, _create_temp_file,
    process_pdf_parse, _cleanup_temp_file, _save_to_cache.

(** C2 (as amended).  When the write of the scratch file does not fail
    after the file is opened and the operating system does not refuse the
    unlink of the scratch file, no scratch file brought into being by a
    call of [_process_pdf] is on disk after the call, whether the call
    returns normally or raises (refused open, parser or any other
    failure). *)
Theorem scratch_file_cleaned (self : DocumentProcessor)
    (file_content file_name : string) (w : World) :
  let temp_path := temp_file_path self (uuid4_hex (uuid_seed w)) ".pdf" in
  fault w WriteData temp_path = None ->
  fault w Unlink temp_path = None ->
  forall p,
    In (ScratchCreated p) (effects w (_process_pdf self file_content file_name w).2) ->
    fs (_process_pdf self file_content file_name w).2 !! p = None.
Proof.
  intros temp_path Hd Hu p.
  pose proof (temp_path_not_cache_path self (uuid4_hex (uuid_seed w))
                (cache_key file_content file_name)) as Hpaths.
  fold (_get_cache_path self file_content file_name) in Hpaths.
  unfold_process_pdf.
  set (cache_path := _get_cache_path self file_content file_name) in *.
  subst temp_path.
  munfold. exec.
  all: since_simpl.
  all: cbn [In]; intros Hin.
  all: repeat (destruct Hin as [Hin|Hin]); try discriminate Hin; try contradiction.
  all: inversion Hin; subst; map_simpl; try reflexivity.
Qed.
(** *** What is written is what is read *)

Lemma pyvalue_nested_ind (P : pyvalue -> Prop) :
  P PNone ->
  (forall b, P (PBool b)) ->
  (forall n, P (PInt n)) ->
  (forall s, P (PStr s)) ->
  (forall items, Forall P items -> P (PList items)) ->
  (forall items, Forall P items -> P (PTuple items)) ->
  (forall items, Forall (fun kv => P kv.2) items -> P (PDict items)) ->
  (forall repr, P (PObject repr)) ->
  forall v, P v.
Proof.
  intros HN HB HI HS HL HT HD HO.
  fix IH 1. intros [ |b|n|s|items|items|items|repr].
  - exact HN.
  - apply HB.
  - apply HI.
  - apply HS.
  - apply HL. induction items as [|x rest IHrest]; constructor; [apply IH|exact IHrest].
  - apply HT. induction items as [|x rest IHrest]; constructor; [apply IH|exact IHrest].
  - apply HD. induction items as [|[k x] rest IHrest]; constructor; [apply IH|exact IHrest].
  - apply HO.
Qed.

Lemma traverse_inverse {A B : Type} (f : A -> ExnClass + B) (g : B -> A)
    (ok : A -> bool) (l : list A) :
  Forall (fun x => ok x = true -> exists y, f x = inr y /\ g y = x) l ->
  forallb ok l = true ->
  exists ys, traverse f l = inr ys /\ List.map g ys = l.
Proof.
  induction 1 as [|x rest Hx Hrest IH]; cbn [forallb traverse List.map]; intros Hok.
  - exists []. split; reflexivity.
  - apply andb_true_iff in Hok as [Hokx Hokr].
    destruct (Hx Hokx) as (y & Hy & Hgy).
    destruct (IH Hokr) as (ys & Hys & Hgys).
    exists (y :: ys). rewrite Hy, Hys.
    split; [reflexivity|]. cbn [List.map]. rewrite Hgy, Hgys. reflexivity.
Qed.

(** A JSON-native value is written without failure, and read back as it
    was. *)
Lemma to_json_native (v : pyvalue) :
  json_native v = true -> exists j, to_json v = inr j /\ of_json j = v.
Proof.
  induction v as [ |b|n|s|items IH|items IH|items IH|repr] using pyvalue_nested_ind;
    cbn [json_native to_json]; intros Hok; try discriminate Hok.
  - exists JNull. split; reflexivity.
  - exists (JBool b). split; reflexivity.
  - exists (JInt n). split; reflexivity.
  - exists (JStr s). unfold encode_str. rewrite Hok. split; reflexivity.
  - destruct (traverse_inverse to_json of_json json_native items IH Hok) as (js & Hjs & Hmap).
    exists (JList js). rewrite Hjs. split; [reflexivity|].
    cbn [of_json]. rewrite Hmap. reflexivity.
  - destruct (traverse_inverse
                (fun kv : string * pyvalue =>
                   match kv with
                   | (k, x) =>
                       match encode_str k with
                       | inl c => inl c
                       | inr k' =>
                           match to_json x with
                           | inl c => inl c
                           | inr j => inr (k', j)
                           end
                       end
                   end)
                (fun kv : string * json => match kv with (k, x) => (k, of_json x) end)
                (fun kv : string * pyvalue =>
                   match kv with (k, x) => PyStr.utf8_valid k && json_native x end)
                items) as (js & Hjs & Hmap).
    + eapply Forall_impl; [exact IH|]. intros [k x] Hx Hkx. cbn [snd] in Hx.
      apply andb_true_iff in Hkx as [Hk Hnat].
      destruct (Hx Hnat) as (j & Hj & Hback).
      exists (k, j). unfold encode_str. rewrite Hk, Hj, Hback. split; reflexivity.
    + exact Hok.
    + exists (JDict js). rewrite Hjs. split; [reflexivity|].
      cbn [of_json]. rewrite Hmap. reflexivity.
Qed.

Lemma to_json_dict_items (items : list (string * pyvalue)) :
  json_native (PDict items) = true ->
  exists js,
    to_json (PDict items) = inr (JDict js)
    /\ List.map (fun kv : string * json => match kv with (k, x) => (k, of_json x) end) js
       = items.
Proof.
  intros Hok. destruct (to_json_native _ Hok) as (j & Hj & Hback).
  pose proof Hj as Hdict. cbn [to_json] in Hj.
  match type of Hj with
  | match ?t with _ => _ end = _ => destruct t as [c|js]; [discriminate Hj|]
  end.
  injection Hj as <-. exists js. split; [exact Hdict|].
  cbn [of_json] in Hback. injection Hback as Hback. exact Hback.
Qed.

(** The dict of a chunk with JSON-native fields is written without
    failure, and the constructor makes the chunk again from what is
    read. *)
Lemma Document_of_dict (d : Document) :
  json_native (Document_dict d) = true ->
  exists j, to_json (Document_dict d) = inr j /\ Document_of_kwargs j = Ok d.
Proof.
  destruct d as [text md id]. unfold Document_dict.
  cbn [json_native forallb page_content metadata doc_id]. intros Hok.
  apply andb_true_iff in Hok as [Hid Hok]. apply andb_true_iff in Hid as [_ Hid].
  apply andb_true_iff in Hok as [Hmd Hok]. apply andb_true_iff in Hmd as [_ Hmd].
  apply andb_true_iff in Hok as [Htext _]. apply andb_true_iff in Htext as [_ Htext].
  destruct (to_json_dict_items md Hmd) as (mdj & Hmdj & Hback).
  cbn [json_native] in Htext.
  exists (JDict [("id", match id with Some s => JStr s | None => JNull end);
                 ("metadata", JDict mdj);
                 ("page_content", JStr text);
                 ("type", JStr "Document")]).
  split.
  - cbn [to_json] in Hmdj.
    destruct id as [s|]; cbn [json_native] in Hid; cbn [to_json traverse]; rewrite Hmdj.
    all: change (encode_str "id") with (@inr ExnClass string "id").
    all: change (encode_str "metadata") with (@inr ExnClass string "metadata").
    all: change (encode_str "page_content") with (@inr ExnClass string "page_content").
    all: change (encode_str "type") with (@inr ExnClass string "type").
    all: change (encode_str "Document") with (@inr ExnClass string "Document").
    all: unfold encode_str; rewrite Htext; try rewrite Hid; reflexivity.
  - unfold Document_of_kwargs, kwargs_metadata, kwargs_id, kwargs_type_ok.
    change (dict_get "self" ?kw) with (@None json).
    cbv [dict_get String.eqb Ascii.eqb Bool.eqb].
    rewrite Hback. destruct id; reflexivity.
Qed.

Lemma Documents_of_dicts (docs : list Document) :
  json_native (PList (List.map Document_dict docs)) = true ->
  exists js,
    traverse to_json (List.map Document_dict docs) = inr js
    /\ Documents_of_items js = Ok docs.
Proof.
  induction docs as [|d docs IH]; cbn [List.map json_native forallb traverse]; intros Hok.
  - exists []. split; reflexivity.
  - apply andb_true_iff in Hok as [Hd Hrest].
    destruct (Document_of_dict d Hd) as (j & Hj & Hdoc).
    destruct (IH Hrest) as (js & Hjs & Hdocs).
    exists (j :: js). rewrite Hj, Hjs.
    split; [reflexivity|]. cbn [Documents_of_items]. rewrite Hdoc, Hdocs. reflexivity.
Qed.

(** The record [_save_to_cache] writes for JSON-native chunks: the dump
    succeeds, and the loader makes the chunks again from what it wrote. *)
Lemma Documents_of_dump (docs : list Document) :
  json_native (PList (List.map Document_dict docs)) = true ->
  exists j,
    to_json (PList (List.map Document_dict docs)) = inr j
    /\ Documents_of_data j = Ok docs.
Proof.
  intros Hok. destruct (Documents_of_dicts docs Hok) as (js & Hjs & Hdocs).
  exists (JList js). cbn [to_json]. rewrite Hjs. split; [reflexivity|exact Hdocs].
Qed.

(** *** The cache in [_process_pdf] *)

Lemma process_pdf_hit (self : DocumentProcessor) (file_content file_name : string)
    (w : World) (docs : list Document) :
  let cache_path := _get_cache_path self file_content file_name in
  cache_state w cache_path = Usable docs ->
  exists w',
    _process_pdf self file_content file_name w = (Ok docs, w')
    /\ fs w' = fs w /\ io w' = CacheRead cache_path :: io w.
Proof.
  intros cache_path. unfold cache_state.
  destruct (fs w !! cache_path) as [f|] eqn:Hf; [|discriminate].
  destruct (fault w OpenRead cache_path) eqn:Hr; [discriminate|].
  destruct f as [data| |]; [|discriminate|discriminate].
  destruct (Documents_of_data data) eqn:Hd; [|discriminate].
  intros [= ->].
  unfold_process_pdf. fold cache_path. munfold. exec.
  eexists. split; [reflexivity|]. wsimpl. auto.
Qed.

(** A call that returns a non-empty list of JSON-native chunks, the cache
    file being readable and writable, leaves them in the cache. *)
Lemma process_pdf_warms_cache (self : DocumentProcessor)
    (file_content file_name : string) (w : World) (docs : list Document) :
  let cache_path := _get_cache_path self file_content file_name in
  fault w OpenRead cache_path = None ->
  fault w OpenWrite cache_path = None ->
  fault w WriteData cache_path = None ->
  json_native (PList (List.map Document_dict docs)) = true ->
  (_process_pdf self file_content file_name w).1 = Ok docs ->
  docs <> [] ->
  cache_state (_process_pdf self file_content file_name w).2 cache_path = Usable docs.
Proof.
  intros cache_path Hr Hw Hd.
  pose proof (temp_path_not_cache_path self (uuid4_hex (uuid_seed w))
                (cache_key file_content file_name)) as Hpaths.
  fold (_get_cache_path self file_content file_name) in Hpaths. fold cache_path in Hpaths.
  unfold_process_pdf. fold cache_path. munfold. exec.
  all: intros Hnat Hres Hne; try discriminate Hres; try congruence.
  all: injection Hres as <-.
  all: destruct (Documents_of_dump _ Hnat) as (j' & Hj' & Hdocs').
  all: try congruence.
  all: unfold cache_state; exec1.
  all: try reflexivity.
  all: match goal with E : to_json _ = inr _ |- _ => rewrite Hj' in E; injection E as <- end.
  all: rewrite Hdocs'; reflexivity.
Qed.

(** C1 (as amended).  When a call of [_process_pdf] returns a non-empty
    list of chunks that [json.dump] can write (JSON-native, every string
    encodable) and the cache file of the input can be read, opened and
    written, a second call with the same bytes and file name returns the
    identical list from the cache: its only effect is the read of the
    cache record (no scratch file, no parser run) and the file system is
    unchanged. *)
Theorem process_pdf_second_call_hits (self : DocumentProcessor)
    (file_content file_name : string) (w w1 : World) (docs : list Document) :
  let cache_path := _get_cache_path self file_content file_name in
  fault w OpenRead cache_path = None ->
  fault w OpenWrite cache_path = None ->
  fault w WriteData cache_path = None ->
  json_native (PList (List.map Document_dict docs)) = true ->
  _process_pdf self file_content file_name w = (Ok docs, w1) ->
  docs <> [] ->
  exists w2,
    _process_pdf self file_content file_name w1 = (Ok docs, w2)
    /\ effects w1 w2 = [CacheRead cache_path]
    /\ fs w2 = fs w1.
Proof.
  intros cache_path Hr Hw Hd Hnat Hrun Hne.
  pose proof (process_pdf_warms_cache self file_content file_name w docs Hr Hw Hd Hnat)
    as Hwarm.
  rewrite Hrun in Hwarm. specialize (Hwarm eq_refl Hne).
  destruct (process_pdf_hit self file_content file_name w1 docs Hwarm)
    as (w2 & Hrun2 & Hfs & Hio).
  exists w2. split; [exact Hrun2|]. split; [|exact Hfs].
  unfold effects. rewrite Hio. exact (since_app [CacheRead cache_path] (io w1)).
Qed.



(** *** The cache key *)

Lemma append_length (a b : string) :
  String.length (a +:+ b) = String.length a + String.length b.
Proof.
  induction a as [|c a IH]; [reflexivity|].
  change (String c a +:+ b) with (String c (a +:+ b)).
  cbn [String.length]. rewrite IH. reflexivity.
Qed.

Lemma append_inv_tail (a b s : string) : a +:+ s = b +:+ s -> a = b.
Proof.
  revert b. induction a as [|x a IH]; intros [|y b] E; try reflexivity.
  - apply (f_equal String.length) in E.
    change (String y b +:+ s) with (String y (b +:+ s)) in E.
    change ("" +:+ s) with s in E.
    cbn [String.length] in E. rewrite append_length in E. lia.
  - apply (f_equal String.length) in E.
    change (String x a +:+ s) with (String x (a +:+ s)) in E.
    change ("" +:+ s) with s in E.
    cbn [String.length] in E. rewrite append_length in E. lia.
  - change (String x (a +:+ s) = String y (b +:+ s)) in E.
    injection E as -> E. f_equal. exact (IH _ E).
Qed.

Lemma cache_path_inj (self : DocumentProcessor) (b1 n1 b2 n2 : string) :
  _get_cache_path self b1 n1 = _get_cache_path self b2 n2 ->
  md5_hexdigest (b1 +:+ n1) = md5_hexdigest (b2 +:+ n2).
Proof.
  unfold _get_cache_path, path_join, cache_key. intros E.
  apply String.app_inj in E. apply String.app_inj in E.
  exact (append_inv_tail _ _ _ E).
Qed.

Lemma load_from_cache_result (cache_path : string) (w : World) :
  (_load_from_cache cache_path w).1
  = Ok (match cache_state w cache_path with
        | Usable docs => Some docs
        | _ => None
        end).
Proof. unfold _load_from_cache, cache_state. munfold. exec; reflexivity. Qed.

Lemma save_to_cache_frame (cache_path other : string) (docs : list Document) (w : World) :
  cache_path <> other ->
  fs (_save_to_cache cache_path docs w).2 !! other = fs w !! other
  /\ fault (_save_to_cache cache_path docs w).2 = fault w.
Proof.
  intros Hne. unfold _save_to_cache. munfold. exec; auto.
Qed.

(** C4 (as amended).  Two inputs whose concatenations of file bytes and
    encoded file name have different digests get different cache paths,
    and a record saved for the first is not what a lookup for the second
    finds: that lookup gives what it gave before the save. *)
Theorem cache_key_sensitivity (self : DocumentProcessor) (b1 n1 b2 n2 : string) :
  md5_hexdigest (b1 +:+ n1) <> md5_hexdigest (b2 +:+ n2) ->
  _get_cache_path self b1 n1 <> _get_cache_path self b2 n2
  /\ forall docs w,
       (_load_from_cache (_get_cache_path self b2 n2)
          (_save_to_cache (_get_cache_path self b1 n1) docs w).2).1
       = (_load_from_cache (_get_cache_path self b2 n2) w).1.
Proof.
  intros Hdigest.
  assert (_get_cache_path self b1 n1 <> _get_cache_path self b2 n2) as Hne.
  { intros E. apply Hdigest. exact (cache_path_inj _ _ _ _ _ E). }
  split; [exact Hne|]. intros docs w.
  rewrite !load_from_cache_result.
  destruct (save_to_cache_frame _ _ docs w Hne) as [Hfs Hfault].
  unfold cache_state. rewrite Hfs, Hfault. reflexivity.
Qed.

(** C3 (as amended).  Chunks that [json.dump] can write (JSON-native
    text, metadata and id, every string encodable), saved by
    [_save_to_cache] and reloaded by [_load_from_cache] from the same
    path, come back equal, text, metadata and id, to the list saved (the
    save and the load taking place: the file can be opened, written and
    read); the save logs nothing. *)
Theorem cache_roundtrip (cache_path : string) (documents : list Document) (w : World) :
  json_native (PList (List.map Document_dict documents)) = true ->
  fault w OpenWrite cache_path = None ->
  fault w WriteData cache_path = None ->
  fault w OpenRead cache_path = None ->
  exists w1 w2,
    _save_to_cache cache_path documents w = (Ok tt, w1)
    /\ logged w w1 = []
    /\ _load_from_cache cache_path w1 = (Ok (Some documents), w2).
Proof.
  intros Hnat Hw Hd Hr.
  destruct (Documents_of_dump documents Hnat) as (j & Hj & Hdocs).
  unfold _save_to_cache, _load_from_cache. munfold. exec1.
  eexists _, _. split; [reflexivity|]. split; [since_simpl; reflexivity|].
  exec1. reflexivity.
Qed.
(** *** Clearing the cache *)

Lemma NoDup_filter {A} (f : A -> bool) (l : list A) :
  NoDup l -> NoDup (List.filter f l).
Proof.
  induction 1 as [|x l Hx Hl IH]; cbn [List.filter]; [constructor|].
  destruct (f x); [|exact IH].
  constructor; [|exact IH].
  rewrite list_elem_of_In, filter_In, <- list_elem_of_In. intros [Hin _]. contradiction.
Qed.

Lemma glob_json_files (dir : string) (w : World) (p : string) :
  p ∈ List.filter (glob_json_match dir) (map_to_list (fs w)).*1
  <-> glob_json_match dir p = true /\ is_Some (fs w !! p).
Proof.
  rewrite list_elem_of_In, filter_In, <- list_elem_of_In.
  rewrite list_elem_of_fmap. split.
  - intros [([k d] & -> & Hin) Hm]. apply elem_of_map_to_list in Hin. eauto.
  - intros [Hm [d Hd]]. split; [|exact Hm].
    exists (p, d). split; [reflexivity|]. apply elem_of_map_to_list. exact Hd.
Qed.

Lemma unlink_each_ok (ev : string -> IoEvent) (files : list string) (w : World) :
  NoDup files ->
  (forall p, p ∈ files -> is_Some (fs w !! p) /\ fault w Unlink p = None) ->
  exists w',
    unlink_each ev files w = (Ok tt, w')
    /\ (forall p, p ∈ files -> fs w' !! p = None)
    /\ (forall p, p ∉ files -> fs w' !! p = fs w !! p)
    /\ log w' = log w.
Proof.
  revert w. induction files as [|file rest IH]; intros w Hnd Hall.
  - exists w. cbn [unlink_each]. unfold ret. repeat split; auto.
    intros p Hp. inversion Hp.
  - apply NoDup_cons in Hnd as [Hfile Hnd].
    destruct (Hall file) as [[d Hd] Hf]; [left|].
    cbn [unlink_each]. munfold. rewrite Hf, Hd.
    set (w1 := add_io (ev file) (set_fs (delete file (fs w)) w)).
    destruct (IH w1 Hnd) as (w' & Hrun & Hgone & Hkept & Hlog).
    { intros p Hp. subst w1. wsimpl.
      assert (file <> p) by (intros ->; contradiction).
      rewrite lookup_delete_ne by assumption. apply Hall. right. exact Hp. }
    exists w'. rewrite Hrun. split; [reflexivity|].
    split; [|split; [|exact Hlog]].
    + intros p Hp. apply elem_of_cons in Hp as [->|Hp]; [|exact (Hgone p Hp)].
      rewrite (Hkept file Hfile). subst w1. wsimpl. apply lookup_delete_eq.
    + intros p Hp. apply not_elem_of_cons in Hp as [Hne Hp].
      rewrite (Hkept p Hp). subst w1. wsimpl. apply lookup_delete_ne. congruence.
Qed.

Lemma unlink_each_fails (ev : string -> IoEvent) (files : list string) (w : World) :
  NoDup files ->
  (forall p, p ∈ files -> is_Some (fs w !! p)) ->
  (exists p, p ∈ files /\ is_Some (fault w Unlink p)) ->
  exists p e w',
    p ∈ files /\ fault w Unlink p = Some e
    /\ unlink_each ev files w = (Raise e, w')
    /\ fs w' !! p = fs w !! p
    /\ log w' = log w.
Proof.
  revert w. induction files as [|file rest IH]; intros w Hnd Hall (q & Hq & Hfault).
  - inversion Hq.
  - apply NoDup_cons in Hnd as [Hfile Hnd].
    destruct (fault w Unlink file) as [e|] eqn:Hf.
    + exists file, e, w. cbn [unlink_each]. munfold. rewrite Hf.
      repeat split; auto. left.
    + destruct (Hall file) as [d Hd]; [left|].
      set (w1 := add_io (ev file) (set_fs (delete file (fs w)) w)).
      destruct (IH w1 Hnd) as (p & e & w' & Hp & Hpf & Hrun & Hfs & Hlog).
      { intros p Hp. subst w1. wsimpl.
        assert (file <> p) by (intros ->; contradiction).
        rewrite lookup_delete_ne by assumption. apply Hall. right. exact Hp. }
      { exists q. split; [|exact Hfault].
        apply elem_of_cons in Hq as [->|Hq]; [|exact Hq].
        rewrite Hf in Hfault. destruct Hfault as [? [=]]. }
      exists p, e, w'. cbn [unlink_each]. munfold. rewrite Hf, Hd. fold w1.
      rewrite Hrun. split; [right; exact Hp|]. split; [exact Hpf|].
      split; [reflexivity|]. split; [|exact Hlog].
      rewrite Hfs. subst w1. wsimpl.
      apply lookup_delete_ne. intros ->. contradiction.
Qed.

(** The loop stops at the first file whose unlink is refused: the files
    before it are gone, every other file is as it was. *)
Lemma unlink_each_stops (ev : string -> IoEvent) (done : list string) (p : string)
    (todo : list string) (e : PyExn) (w : World) :
  NoDup (done ++ p :: todo)%list ->
  (forall q, In q done -> is_Some (fs w !! q) /\ fault w Unlink q = None) ->
  fault w Unlink p = Some e ->
  exists w',
    unlink_each ev (done ++ p :: todo)%list w = (Raise e, w')
    /\ (forall q, In q done -> fs w' !! q = None)
    /\ (forall q, ~ In q done -> fs w' !! q = fs w !! q)
    /\ log w' = log w
    /\ io w' = (rev (List.map ev done) ++ io w)%list.
Proof.
  revert w. induction done as [|file rest IH]; intros w Hnd Hdone Hp.
  - exists w. cbn [app unlink_each]. munfold. rewrite Hp.
    repeat split; auto. intros q [].
  - change ((file :: rest) ++ p :: todo)%list with (file :: (rest ++ p :: todo))%list in *.
    apply NoDup_cons in Hnd as [Hfile Hnd].
    destruct (Hdone file) as [[d Hd] Hf]; [left; reflexivity|].
    set (w1 := add_io (ev file) (set_fs (delete file (fs w)) w)).
    destruct (IH w1 Hnd) as (w' & Hrun & Hgone & Hkept & Hlog & Hio).
    { intros q Hq. subst w1. wsimpl.
      assert (file <> q).
      { intros ->. apply Hfile. apply elem_of_app. left. apply list_elem_of_In. exact Hq. }
      rewrite lookup_delete_ne by assumption. apply Hdone. right. exact Hq. }
    { exact Hp. }
    exists w'. cbn [unlink_each]. munfold. rewrite Hf, Hd. fold w1. rewrite Hrun.
    split; [reflexivity|]. split; [|split; [|split; [exact Hlog|]]].
    + intros q [<-|Hq]; [|exact (Hgone q Hq)].
      rewrite Hkept.
      * subst w1. wsimpl. apply lookup_delete_eq.
      * intros Hin. apply Hfile. apply elem_of_app. left. apply list_elem_of_In. exact Hin.
    + intros q Hq. rewrite Hkept.
      * subst w1. wsimpl. apply lookup_delete_ne. intros ->. apply Hq. left. reflexivity.
      * intros Hin. apply Hq. right. exact Hin.
    + rewrite Hio. subst w1. wsimpl. cbn [List.map rev].
      rewrite <- app_assoc. reflexivity.
Qed.

(** The first file of a list whose unlink is refused. *)
Lemma first_refused (files : list string) (w : World) :
  (exists p, In p files /\ is_Some (fault w Unlink p)) ->
  exists done p todo e,
    files = (done ++ p :: todo)%list
    /\ (forall q, In q done -> fault w Unlink q = None)
    /\ fault w Unlink p = Some e.
Proof.
  induction files as [|file rest IH]; intros (q & Hq & Hfault).
  - destruct Hq.
  - destruct (fault w Unlink file) as [e|] eqn:Hf.
    + exists [], file, rest, e. repeat split; auto. intros ? [].
    + destruct IH as (done & p & todo & e & -> & Hdone & Hp).
      { exists q. split; [|exact Hfault].
        destruct Hq as [->|Hq]; [|exact Hq].
        rewrite Hf in Hfault. destruct Hfault as [? [=]]. }
      exists (file :: done), p, todo, e. split; [reflexivity|]. split; [|exact Hp].
      intros x [<-|Hx]; [exact Hf|exact (Hdone x Hx)].
Qed.

(** C9 (as amended).  [clear_cache] deletes every "*.json" entry of the
    cache directory and nothing else when no deletion is refused.  When
    the deletion of some record is refused, the loop stops at the first
    such record [p]: the records [done] that came before it are deleted,
    the failure is logged as an error and the very exception of the
    refused deletion is raised to the caller, and every other file, [p]
    and the records [todo] not yet reached among them, stays as it was. *)
Theorem clear_cache_outcome (self : DocumentProcessor) (w : World) :
  let is_record := glob_json_match (cache_dir self) in
  ((forall p, is_record p = true -> fault w Unlink p = None) ->
   exists w',
     clear_cache self w = (Ok tt, w')
     /\ (forall p, is_record p = true -> fs w' !! p = None)
     /\ (forall p, is_record p = false -> fs w' !! p = fs w !! p))
  /\ ((exists p, is_record p = true /\ is_Some (fs w !! p) /\ is_Some (fault w Unlink p)) ->
      exists done p todo e w',
        (glob_json (cache_dir self) w).1 = Ok (done ++ p :: todo)%list
        /\ (forall q, In q done -> fault w Unlink q = None)
        /\ fault w Unlink p = Some e
        /\ clear_cache self w = (Raise e, w')
        /\ logged w w' = [Log ERROR ("清除缓存失败: " +:+ exn_str e)]
        /\ effects w w' = rev (List.map CacheRemoved done)
        /\ (forall q, In q done -> fs w' !! q = None)
        /\ (forall q, In q (p :: todo) ->
              is_record q = true /\ is_Some (fs w !! q) /\ fs w' !! q = fs w !! q)
        /\ (forall q, ~ In q done -> fs w' !! q = fs w !! q)).
Proof.
  intros is_record.
  set (files := List.filter is_record (map_to_list (fs w)).*1).
  assert (NoDup files) as Hnd
    by (apply NoDup_filter, NoDup_fst_map_to_list).
  split.
  - intros Hok.
    destruct (unlink_each_ok CacheRemoved files w Hnd) as (w' & Hrun & Hgone & Hkept & Hlog).
    { intros p Hp. apply glob_json_files in Hp as [Hm Hs]. split; [exact Hs|exact (Hok p Hm)]. }
    unfold clear_cache, glob_json. munfold. fold is_record. fold files. rewrite Hrun.
    eexists. split; [reflexivity|]. wsimpl. split.
    + intros p Hm. destruct (fs w !! p) as [d|] eqn:Hd.
      * apply Hgone. apply glob_json_files. eauto.
      * rewrite Hkept; [exact Hd|]. intros Hp.
        apply glob_json_files in Hp as [_ [? Hs]]. congruence.
    + intros p Hm. apply Hkept. intros Hp.
      apply glob_json_files in Hp as [Hm' _]. fold is_record in Hm'. congruence.
  - intros (q & Hm & Hs & Hf).
    destruct (first_refused files w) as (done & p & todo & e & Hfiles & Hdone & Hp).
    { exists q. split; [|exact Hf]. apply list_elem_of_In. apply glob_json_files. auto. }
    assert (forall x, In x files -> is_record x = true /\ is_Some (fs w !! x)) as Hrec.
    { intros x Hx. apply list_elem_of_In in Hx. apply glob_json_files in Hx. exact Hx. }
    rewrite Hfiles in Hnd.
    destruct (unlink_each_stops CacheRemoved done p todo e w Hnd)
      as (w' & Hrun & Hgone & Hkept & Hlog & Hio).
    { intros x Hx. split; [|exact (Hdone x Hx)].
      apply Hrec. rewrite Hfiles. apply in_or_app. left. exact Hx. }
    { exact Hp. }
    exists done, p, todo, e.
    exists (add_log (Log ERROR ("清除缓存失败: " +:+ exn_str e)) w').
    unfold clear_cache, glob_json. munfold. fold is_record. fold files.
    cbn [fst]. rewrite Hfiles, Hrun. wsimpl.
    split; [reflexivity|]. split; [exact Hdone|]. split; [exact Hp|].
    split; [reflexivity|].
    split; [unfold logged; wsimpl; rewrite Hlog;
            exact (since_app [Log ERROR ("清除缓存失败: " +:+ exn_str e)] (log w))|].
    split; [unfold effects; wsimpl; rewrite Hio; apply since_app|].
    split; [exact Hgone|]. split; [|exact Hkept].
    intros x Hx.
    destruct (Hrec x) as [Hxm Hxs].
    { rewrite Hfiles. apply in_or_app. right. exact Hx. }
    split; [exact Hxm|]. split; [exact Hxs|].
    apply Hkept. intros Hin.
    apply NoDup_app in Hnd as (_ & Hdisj & _).
    apply (Hdisj x); apply list_elem_of_In; assumption.
Qed.

(** ** Further properties of the methods *)

(** *** The cache and scratch primitives *)

(** X1.  [_load_from_cache] never raises and never changes the file
    system or the uuid seed; where no file exists it returns [None] and
    leaves the world as it is, without a log record. *)
Theorem load_from_cache_never_raises (cache_path : string) (w : World) :
  exists r w',
    _load_from_cache cache_path w = (Ok r, w')
    /\ fs w' = fs w /\ uuid_seed w' = uuid_seed w
    /\ (fs w !! cache_path = None -> r = None /\ w' = w).
Proof.
  unfold _load_from_cache. munfold. exec.
  all: eexists _, _; split; [reflexivity|]; wsimpl.
  all: repeat split; try reflexivity; intros; try discriminate.
  all: destruct w; reflexivity.
Qed.


(** X3.  [_cleanup_temp_file] never raises.  When the unlink is not
    refused the file is gone afterwards; when it is refused the file system
    is unchanged and, the file being there, one warning is logged.  No
    other path changes. *)
Theorem cleanup_temp_file_never_raises (temp_path : string) (w : World) :
  exists w',
    _cleanup_temp_file temp_path w = (Ok tt, w')
    /\ (forall q, q <> temp_path -> fs w' !! q = fs w !! q)
    /\ (fault w Unlink temp_path = None -> fs w' !! temp_path = None)
    /\ (forall e, fault w Unlink temp_path = Some e ->
        fs w' = fs w
        /\ (is_Some (fs w !! temp_path) ->
            logged w w'
            = [Log WARNING ("清理临时文件失败 " +:+ temp_path +:+ ": " +:+ exn_str e)])).
Proof.
  unfold _cleanup_temp_file. munfold. exec.
  all: eexists; split; [reflexivity|]; since_simpl.
  all: split; [intros q Hq; map_simpl; reflexivity|].
  all: split; [intros [=] || intros _; map_simpl; try reflexivity; try assumption|].
  all: intros e' He; try discriminate He.
  all: try injection He as <-; split; [reflexivity|].
  all: first [intros [? [=]]; reflexivity | intros _; reflexivity].
Qed.

(** *** Clearing the scratch directory *)

Lemma iterdir_files (dir : string) (w : World) (p : string) :
  p ∈ List.filter (fun p => bool_decide (is_Some (entry_of dir p))) (map_to_list (fs w)).*1
  <-> is_Some (entry_of dir p) /\ is_Some (fs w !! p).
Proof.
  rewrite list_elem_of_In, filter_In, <- list_elem_of_In.
  rewrite list_elem_of_fmap, bool_decide_eq_true. split.
  - intros [([k d] & -> & Hin) Hm]. apply elem_of_map_to_list in Hin. eauto.
  - intros [Hm [d Hd]]. split; [|exact Hm].
    exists (p, d). split; [reflexivity|]. apply elem_of_map_to_list. exact Hd.
Qed.

(** X4.  [clear_temp_files] deletes every entry of the scratch directory
    and nothing else when no deletion is refused; when the deletion of an
    entry is refused it logs the failure as an error and raises that
    exception, and the entry stays. *)
Theorem clear_temp_files_outcome (self : DocumentProcessor) (w : World) :
  let is_entry p := is_Some (entry_of (temp_dir self) p) in
  ((forall p, is_entry p -> fault w Unlink p = None) ->
   exists w',
     clear_temp_files self w = (Ok tt, w')
     /\ (forall p, is_entry p -> fs w' !! p = None)
     /\ (forall p, ~ is_entry p -> fs w' !! p = fs w !! p))
  /\ ((exists p, is_entry p /\ is_Some (fs w !! p) /\ is_Some (fault w Unlink p)) ->
      exists p e w',
        is_entry p /\ is_Some (fs w !! p) /\ fault w Unlink p = Some e
        /\ clear_temp_files self w = (Raise e, w')
        /\ logged w w' = [Log ERROR ("清理临时文件失败: " +:+ exn_str e)]
        /\ fs w' !! p = fs w !! p).
Proof.
  intros is_entry.
  set (files := List.filter (fun p => bool_decide (is_Some (entry_of (temp_dir self) p)))
                            (map_to_list (fs w)).*1).
  assert (NoDup files) as Hnd
    by (apply NoDup_filter, NoDup_fst_map_to_list).
  split.
  - intros Hok.
    destruct (unlink_each_ok ScratchRemoved files w Hnd) as (w' & Hrun & Hgone & Hkept & Hlog).
    { intros p Hp. apply iterdir_files in Hp as [Hm Hs]. split; [exact Hs|exact (Hok p Hm)]. }
    unfold clear_temp_files, iterdir. munfold. fold files. rewrite Hrun.
    eexists. split; [reflexivity|]. wsimpl. split.
    + intros p Hm. destruct (fs w !! p) as [d|] eqn:Hd.
      * apply Hgone. apply iterdir_files. eauto.
      * rewrite Hkept; [exact Hd|]. intros Hp.
        apply iterdir_files in Hp as [_ [? Hs]]. congruence.
    + intros p Hm. apply Hkept. intros Hp.
      apply iterdir_files in Hp as [Hm' _]. contradiction.
  - intros (q & Hm & Hs & Hf).
    destruct (unlink_each_fails ScratchRemoved files w Hnd)
      as (p & e & w' & Hp & Hpf & Hrun & Hfs & Hlog).
    { intros p Hp. apply iterdir_files in Hp as [_ Hps]. exact Hps. }
    { exists q. split; [|exact Hf]. apply iterdir_files. auto. }
    apply iterdir_files in Hp as [Hpm Hps].
    exists p, e. unfold clear_temp_files, iterdir. munfold. fold files.
    rewrite Hrun. wsimpl.
    exists (add_log (Log ERROR ("清理临时文件失败: " +:+ exn_str e)) w').
    split; [exact Hpm|]. split; [exact Hps|]. split; [exact Hpf|].
    split; [reflexivity|]. split; [|exact Hfs].
    unfold logged. wsimpl. rewrite Hlog.
    exact (since_app [Log ERROR ("清理临时文件失败: " +:+ exn_str e)] (log w)).
Qed.


(** *** [process_file] *)

Lemma lowered_txt_is_not_pdf (file_name : string) :
  PyStr.endswith (PyStr.lower file_name) ".txt" = true ->
  PyStr.endswith (PyStr.lower file_name) ".pdf" = false.
Proof.
  intros H.
  destruct (PyStr.endswith (PyStr.lower file_name) ".pdf") eqn:E; [|reflexivity].
  pose proof (endswith_unique _ _ _ H E eq_refl). discriminate.
Qed.

(** X5.  Whatever [process_file] raises (the method itself, inside its
    decorators) is a plain [Exception] made from the exception that
    stopped the work: the [ValueError] of the argument check, what
    [_process_pdf] raised for a ".pdf" name, or the decoding error for a
    ".txt" name.  Its message is "处理文件失败: " followed by the message
    of that exception, and the same text is the last record logged, as an
    error; nothing else raises. *)
Theorem process_file_raises_wrapped (self : DocumentProcessor) (arg : PyObject)
    (file_name_arg : option string) (w w' : World) (e : PyExn) :
  process_file_body self arg file_name_arg w = (Raise e, w')
  <-> exists cause w1,
        (resolve_input arg file_name_arg = Raise cause /\ w1 = w
         \/ exists content file_name,
              resolve_input arg file_name_arg = Ok (content, file_name)
              /\ (PyStr.endswith (PyStr.lower file_name) ".pdf" = true
                  /\ _process_pdf self content file_name w = (Raise cause, w1)
                  \/ PyStr.endswith (PyStr.lower file_name) ".pdf" = false
                     /\ PyStr.endswith (PyStr.lower file_name) ".txt" = true
                     /\ decode_utf8 content = Raise cause /\ w1 = w))
        /\ e = mkExn Exception ("处理文件失败: " +:+ exn_str cause)
        /\ w' = add_log (Log ERROR ("处理文件失败: " +:+ exn_str cause)) w1.
Proof.
  unfold process_file_body. munfold.
  destruct (resolve_input arg file_name_arg) as [[content file_name]|c] eqn:Hin;
    cbn [fst snd].
  - destruct (PyStr.endswith (PyStr.lower file_name) ".pdf") eqn:Hp.
    + destruct (_process_pdf self content file_name w) as [[docs|c] w1] eqn:Hrun.
      * split.
        -- destruct (has_getvalue arg); intros [=].
        -- intros (cause & w1' & [[Hr _]|(c' & n' & Hr & [[_ Hrun']|[Hp' _]])] & _);
             congruence.
      * split.
        -- intros [= <- <-]. exists c, w1. split; [|split; reflexivity].
           right. exists content, file_name. split; [reflexivity|]. left. auto.
        -- intros (cause & w1' & [[Hr _]|(c' & n' & Hr & [[_ Hrun']|[Hp' _]])] & -> & ->);
             try congruence.
           all: injection Hr as <- <-; rewrite Hrun in Hrun'; injection Hrun' as <- <-.
           all: reflexivity.
    + destruct (PyStr.endswith (PyStr.lower file_name) ".txt") eqn:Ht.
      * destruct (decode_utf8 content) as [text|c] eqn:Hdec.
        -- split; [intros [=]|].
           intros (cause & w1' & [[Hr _]|(c' & n' & Hr & [[Hp' _]|(_ & _ & Hdec' & _)])] & _);
             try congruence.
           all: injection Hr as <- <-; congruence.
        -- split.
           ++ intros [= <- <-]. exists c, w. split; [|split; reflexivity].
              right. exists content, file_name. split; [reflexivity|]. right. auto.
           ++ intros (cause & w1' & [[Hr _]|(c' & n' & Hr & [[Hp' _]|(_ & _ & Hdec' & ->)])]
                      & -> & ->); try congruence.
              all: injection Hr as <- <-; rewrite Hdec in Hdec'; injection Hdec' as <-.
              all: reflexivity.
      * split; [intros [=]|].
        intros (cause & w1' & [[Hr _]|(c' & n' & Hr & [[Hp' _]|(_ & Ht' & _)])] & _);
          try congruence.
        all: injection Hr as <- <-; congruence.
  - split.
    + intros [= <- <-]. exists c, w. split; [|split; reflexivity]. left. auto.
    + intros (cause & w1' & [[Hr ->]|(c' & n' & Hr & _)] & -> & ->); [|discriminate Hr].
      injection Hr as <-. reflexivity.
Qed.

(** X6.  Under a name whose lowered form ends in ".txt", a well-formed
    input is decoded as UTF-8: well-formed bytes come back as the text
    itself, other bytes make the call raise the wrapped decoding error.
    Either way the file system, the effect trace and the uuid seed are
    unchanged. *)
Theorem process_file_txt_decodes (self : DocumentProcessor) (arg : PyObject)
    (file_name_arg : option string) (content file_name : string) (w : World) :
  arg = UploadedFile content file_name
  \/ (arg = BytesObject content /\ file_name_arg = Some file_name /\ file_name <> "") ->
  PyStr.endswith (PyStr.lower file_name) ".txt" = true ->
  exists w',
    process_file self arg file_name_arg w
    = (if PyStr.utf8_valid content then Ok (Text content)
       else Raise (mkExn Exception ("处理文件失败: " +:+ lib_msg (BadUtf8 content))),
       w')
    /\ fs w' = fs w /\ io w' = io w /\ uuid_seed w' = uuid_seed w.
Proof.
  intros Harg Ht. pose proof (lowered_txt_is_not_pdf _ Ht) as Hp.
  assert (resolve_input arg file_name_arg = Ok (content, file_name)) as Hin.
  { destruct Harg as [->|(-> & -> & Hne)]; [reflexivity|].
    cbn [resolve_input]. destruct file_name; [congruence|reflexivity]. }
  unfold process_file, process_file_body. rewrite Hin.
  munfold. cbn [fst snd]. rewrite Hp, Ht. unfold decode_utf8.
  destruct (PyStr.utf8_valid content); wsimpl.
  all: eexists; split; [reflexivity|]; wsimpl; auto.
Qed.

(** X7.  Only a name whose lowered form ends in ".pdf" makes
    [process_file] touch the disk: for every other input, well-formed or
    not, whatever the outcome, the file system, the effect trace and the
    uuid seed are as before the call. *)
Theorem process_file_non_pdf_is_pure (self : DocumentProcessor) (arg : PyObject)
    (file_name_arg : option string) (w : World) :
  (forall content file_name,
      resolve_input arg file_name_arg = Ok (content, file_name) ->
      PyStr.endswith (PyStr.lower file_name) ".pdf" = false) ->
  let w' := (process_file self arg file_name_arg w).2 in
  fs w' = fs w /\ io w' = io w /\ uuid_seed w' = uuid_seed w.
Proof.
  intros Hnot. unfold process_file, process_file_body.
  destruct (resolve_input arg file_name_arg) as [[content file_name]|e] eqn:Hin.
  - specialize (Hnot content file_name eq_refl).
    munfold. cbn [fst snd]. rewrite Hnot. unfold decode_utf8.
    destruct (PyStr.endswith (PyStr.lower file_name) ".txt");
      [destruct (PyStr.utf8_valid content)|]; wsimpl; auto.
  - munfold. wsimpl. auto.
Qed.

(** X8.  An upload and raw bytes with the upload's (non-empty) name are
    processed alike: where the bytes call returns chunks, the upload call
    returns their texts joined by blank lines; every other outcome (a text,
    an exception) is the same for both.  The [file_name] argument given
    with an upload is ignored. *)
Theorem process_file_upload_like_bytes (self : DocumentProcessor)
    (content file_name : string) (file_name_arg : option string) (w : World) :
  file_name <> "" ->
  (process_file self (UploadedFile content file_name) file_name_arg w).1
  = match (process_file self (BytesObject content) (Some file_name) w).1 with
    | Ok (Chunks docs) =>
        Ok (Text (PyStr.join (String "010" (String "010" ""))
                    (List.map page_content docs)))
    | other => other
    end.
Proof.
  intros Hne.
  assert (PyStr.truthy file_name = true) as Ht
    by (destruct file_name; [congruence|reflexivity]).
  unfold process_file, process_file_body, resolve_input. rewrite Ht.
  munfold. cbn [fst snd has_getvalue].
  destruct (PyStr.endswith (PyStr.lower file_name) ".pdf").
  - destruct (_process_pdf self content file_name (add_log (Executing "process_file") w))
      as [[docs|e] w1]; reflexivity.
  - destruct (PyStr.endswith (PyStr.lower file_name) ".txt").
    + unfold decode_utf8. destruct (PyStr.utf8_valid content); reflexivity.
    + reflexivity.
Qed.


(** *** [_process_pdf] *)

(** X9.  A call of [_process_pdf] changes no file other than the cache
    record of its input and its own scratch file, whatever its outcome. *)
Theorem process_pdf_frame (self : DocumentProcessor)
    (file_content file_name : string) (w : World) (p : string) :
  p <> _get_cache_path self file_content file_name ->
  p <> temp_file_path self (uuid4_hex (uuid_seed w)) ".pdf" ->
  fs (_process_pdf self file_content file_name w).2 !! p = fs w !! p.
Proof.
  intros Hc Ht.
  unfold_process_pdf.
  set (cache_path := _get_cache_path self file_content file_name) in *.
  munfold. exec.
  all: map_simpl; reflexivity.
Qed.




(** *** The cache as a whole *)

Lemma strip_prefix_app (x y : string) : PyStr.strip_prefix x (x +:+ y) = Some y.
Proof.
  induction x as [|a x IH]; [destruct y; reflexivity|].
  change (String a x +:+ y) with (String a (x +:+ y)).
  cbn [PyStr.strip_prefix]. rewrite Ascii.eqb_refl. exact IH.
Qed.

Lemma contains_char_app (c : ascii) (x y : string) :
  PyStr.contains_char c (x +:+ y) = PyStr.contains_char c x || PyStr.contains_char c y.
Proof.
  induction x as [|a x IH]; [reflexivity|].
  change (String a x +:+ y) with (String a (x +:+ y)).
  cbn [PyStr.contains_char]. rewrite IH, orb_assoc. reflexivity.
Qed.

Lemma endswith_app (x y : string) : PyStr.endswith (x +:+ y) y = true.
Proof.
  induction x as [|a x IH]; [apply endswith_refl|].
  change (String a x +:+ y) with (String a (x +:+ y)).
  cbn [PyStr.endswith]. rewrite IH. apply orb_true_r.
Qed.

Lemma append_assoc (x y z : string) : (x +:+ y) +:+ z = x +:+ (y +:+ z).
Proof.
  induction x as [|a x IH]; [reflexivity|].
  change ((String a x +:+ y) +:+ z) with (String a ((x +:+ y) +:+ z)).
  rewrite IH. reflexivity.
Qed.

(** The cache path of an input is one of the entries [clear_cache] globs,
    the digest being free of path separators (as a hex digest is). *)
Lemma cache_path_is_globbed (self : DocumentProcessor) (file_content file_name : string) :
  PyStr.contains_char "/" (cache_key file_content file_name) = false ->
  glob_json_match (cache_dir self) (_get_cache_path self file_content file_name) = true.
Proof.
  intros Hkey. unfold glob_json_match, entry_of, _get_cache_path, path_join.
  rewrite <- (append_assoc (cache_dir self) "/").
  rewrite strip_prefix_app, contains_char_app, Hkey.
  change (PyStr.contains_char "/" ".json") with false. cbn [orb].
  apply endswith_app.
Qed.

(** What a completed run of deletions leaves: the files it went through
    are gone, every other path is as before. *)
Lemma unlink_each_done (ev : string -> IoEvent) (files : list string) (w w' : World) :
  unlink_each ev files w = (Ok tt, w') ->
  forall q, fs w' !! q = if decide (q ∈ files) then None else fs w !! q.
Proof.
  revert w. induction files as [|file rest IH]; intros w Hrun q.
  - injection Hrun as <-. destruct (decide (q ∈ [])) as [Hq|]; [inversion Hq|reflexivity].
  - cbn [unlink_each] in Hrun. revert Hrun. munfold.
    destruct (fault w Unlink file); [intros [=]|].
    destruct (fs w !! file) eqn:Hfile; [|intros [=]].
    set (w1 := add_io (ev file) (set_fs (delete file (fs w)) w)). intros Hrun.
    destruct (unlink_each ev rest w1) as [[[]|e] w2] eqn:Hrest; [|discriminate Hrun].
    injection Hrun as <-. rewrite (IH w1 Hrest q). subst w1. wsimpl.
    destruct (decide (q ∈ rest)) as [Hin|Hnotin];
      destruct (decide (q ∈ file :: rest)) as [Hin'|Hnotin']; try reflexivity.
    + exfalso. apply Hnotin'. right. exact Hin.
    + apply elem_of_cons in Hin' as [->|?]; [apply lookup_delete_eq|contradiction].
    + apply lookup_delete_ne. intros ->. apply Hnotin'. left.
Qed.

(** X12.  [clear_cache] invalidates the cache: once it has returned
    normally, the cache record of every input is gone, so the lookup that
    [_process_pdf] makes for it finds nothing and returns [None] without a
    log record. *)
Theorem clear_cache_invalidates (self : DocumentProcessor)
    (file_content file_name : string) (w w' : World) :
  PyStr.contains_char "/" (md5_hexdigest (file_content +:+ file_name)) = false ->
  clear_cache self w = (Ok tt, w') ->
  let cache_path := _get_cache_path self file_content file_name in
  fs w' !! cache_path = None
  /\ _load_from_cache cache_path w' = (Ok None, w').
Proof.
  intros Hkey Hrun cache_path.
  assert (fs w' !! cache_path = None) as Hgone.
  { pose proof (cache_path_is_globbed self file_content file_name Hkey) as Hglob.
    fold cache_path in Hglob.
    revert Hrun. unfold clear_cache, glob_json. munfold.
    set (files := List.filter (glob_json_match (cache_dir self)) (map_to_list (fs w)).*1).
    destruct (unlink_each CacheRemoved files w) as [[[]|e] w1] eqn:Heach; [|intros [=]].
    wsimpl. intros [= <-]. wsimpl.
    rewrite (unlink_each_done _ _ _ _ Heach cache_path).
    destruct (decide (cache_path ∈ files)) as [Hin|Hnotin]; [reflexivity|].
    destruct (fs w !! cache_path) as [d|] eqn:Hd; [|reflexivity].
    exfalso. apply Hnotin. apply glob_json_files. eauto. }
  split; [exact Hgone|].
  unfold _load_from_cache. munfold. rewrite Hgone. reflexivity.
Qed.

Lemma Documents_of_items_rejects (items : list json) (bad : json) (e : PyExn) :
  In bad items -> Document_of_kwargs bad = Raise e ->
  exists e', Documents_of_items items = Raise e'.
Proof.
  induction items as [|doc rest IH]; intros Hin Hbad; [destruct Hin|].
  cbn [Documents_of_items].
  destruct (Document_of_kwargs doc) as [d|e0] eqn:Hdoc; [|eauto].
  destruct Hin as [->|Hin]; [congruence|].
  destruct (IH Hin Hbad) as [e' ->]. eauto.
Qed.

(** X13.  A cache record is loaded whole or not at all: when one item of
    the stored list is not a valid document, [_load_from_cache] returns
    [None] (a miss) and logs one warning, whatever the other items are. *)
Theorem load_from_cache_all_or_nothing (cache_path : string) (w : World)
    (items : list json) (bad : json) (e : PyExn) :
  fs w !! cache_path = Some (JsonText (JList items)) ->
  fault w OpenRead cache_path = None ->
  In bad items ->
  Document_of_kwargs bad = Raise e ->
  exists e' w',
    _load_from_cache cache_path w = (Ok None, w')
    /\ logged w w' = [Log WARNING ("从缓存加载失败: " +:+ exn_str e')].
Proof.
  intros Hfile Hread Hin Hbad.
  destruct (Documents_of_items_rejects items bad e Hin Hbad) as [e' He'].
  exists e'. unfold _load_from_cache. munfold. exec1.
  unfold Documents_of_data. rewrite He'.
  eexists. split; [reflexivity|]. since_simpl. reflexivity.
Qed.

Lemma lowered_suffix_truthy (file_name suffix : string) :
  PyStr.endswith (PyStr.lower file_name) suffix = true ->
  PyStr.truthy suffix = true -> PyStr.truthy file_name = true.
Proof.
  intros H Hs. pose proof (endswith_truthy _ _ H Hs) as Ht.
  destruct file_name; [discriminate Ht|reflexivity].
Qed.

(** X14.  Idempotence at the public entry point: when [process_file] on
    raw PDF bytes returns a non-empty list of chunks that [json.dump] can
    write and the cache file of the input can be read, opened and written,
    a second [process_file] call with the same bytes and name returns the
    same chunks, its only effect being the read of the cache record. *)
Theorem process_file_pdf_second_call_hits (self : DocumentProcessor)
    (content file_name : string) (w w1 : World) (docs : list Document) :
  let cache_path := _get_cache_path self content file_name in
  PyStr.endswith (PyStr.lower file_name) ".pdf" = true ->
  fault w OpenRead cache_path = None ->
  fault w OpenWrite cache_path = None ->
  fault w WriteData cache_path = None ->
  json_native (PList (List.map Document_dict docs)) = true ->
  process_file self (BytesObject content) (Some file_name) w = (Ok (Chunks docs), w1) ->
  docs <> [] ->
  exists w2,
    process_file self (BytesObject content) (Some file_name) w1 = (Ok (Chunks docs), w2)
    /\ effects w1 w2 = [CacheRead cache_path]
    /\ fs w2 = fs w1.
Proof.
  intros cache_path Hpdf Hr Hw Hd Hnat Hrun Hne.
  pose proof (lowered_suffix_truthy _ _ Hpdf eq_refl) as Hname.
  revert Hrun. unfold process_file, process_file_body, resolve_input. rewrite Hname.
  munfold. cbn [fst snd has_getvalue]. rewrite Hpdf.
  set (w0 := add_log (Executing "process_file") w).
  pose proof (process_pdf_warms_cache self content file_name w0 docs Hr Hw Hd Hnat) as Hwarm.
  destruct (_process_pdf self content file_name w0) as [[docs0|e0] w1'] eqn:Hfirst;
    [|intros [=]].
  intros [= -> <-]. specialize (Hwarm eq_refl Hne). cbn [snd] in Hwarm.
  set (w0' := add_log (Executing "process_file") (add_log (Completed "process_file") w1')).
  destruct (process_pdf_hit self content file_name w0' docs Hwarm)
    as (w2' & Hsecond & Hfs & Hio).
  rewrite Hsecond. eexists. split; [reflexivity|]. wsimpl. split; [|exact Hfs].
  unfold effects. wsimpl. rewrite Hio. subst w0'. wsimpl.
  exact (since_app [CacheRead cache_path] (io w1')).
Qed.

End DocumentProcessor.

(** ** The theorems at concrete inputs *)

Abbreviation sample_process_pdf :=
  (_process_pdf Sample.digest Sample.uuid_hex Sample.load_pdf Sample.message
     Sample.processor).
Abbreviation sample_process_file :=
  (process_file Sample.digest Sample.uuid_hex Sample.load_pdf Sample.message
     Sample.processor).
Abbreviation sample_cache_path :=
  (_get_cache_path Sample.digest Sample.processor).
Abbreviation sample_temp_path n :=
  (temp_file_path Sample.processor (Sample.uuid_hex n) ".pdf").
Abbreviation sample_save := (_save_to_cache Sample.message).
Abbreviation sample_load := (_load_from_cache Sample.message).

(** C1, counterexample.  A PDF without text ("%PDF" alone) yields no chunk:
    the first call returns the empty list and writes no cache record, and
    the second call with the same bytes and name creates a scratch file and
    invokes the parser again.  A PDF whose text holds a lone surrogate
    yields one chunk, which [json.dump] cannot write to the utf-8 file:
    the save is abandoned half-way with a warning, the record is left cut
    short, and the second call, with nothing refused by the operating
    system, finds it unusable and parses again. *)
Lemma second_call_parses_again :
  (let call := sample_process_pdf "%PDF" "scan.pdf" in
   let w1 := (call Sample.empty_world).2 in
   (call Sample.empty_world).1 = Ok []
   /\ (call w1).1 = Ok []
   /\ effects w1 (call w1).2
      = [ScratchRemoved (sample_temp_path 1);
         ParserInvoked (sample_temp_path 1);
         ScratchCreated (sample_temp_path 1)])
  /\ (let call := sample_process_pdf Sample.surrogate_pdf "scan.pdf" in
      let cache_path := sample_cache_path Sample.surrogate_pdf "scan.pdf" in
      let w1 := (call Sample.empty_world).2 in
      (call Sample.empty_world).1
      = Ok [mkDocument Sample.lone_surrogate
              [("source", PStr (sample_temp_path 0)); ("page", PInt 0)] None]
      /\ In (Log WARNING "保存到缓存失败: not serializable") (logged Sample.empty_world w1)
      /\ fs w1 !! cache_path = Some Partial
      /\ (call w1).1
         = Ok [mkDocument Sample.lone_surrogate
                 [("source", PStr (sample_temp_path 1)); ("page", PInt 0)] None]
      /\ effects w1 (call w1).2
         = [ScratchRemoved (sample_temp_path 1);
            ParserInvoked (sample_temp_path 1);
            ScratchCreated (sample_temp_path 1);
            CacheRead cache_path]).
Proof.
  split.
  - vm_compute. repeat split; reflexivity.
  - vm_compute. split; [reflexivity|]. split; [auto 10|]. repeat split; reflexivity.
Qed.

(** C1, witness: a PDF with text, processed twice from the empty world. *)
Lemma process_pdf_second_call_hits_witness :
  let call := sample_process_pdf "%PDF hello" "scan.pdf" in
  let cache_path := sample_cache_path "%PDF hello" "scan.pdf" in
  let w1 := (call Sample.empty_world).2 in
  let docs :=
    [mkDocument " hello" [("source", PStr (sample_temp_path 0)); ("page", PInt 0)] None] in
  fault Sample.empty_world OpenRead cache_path = None
  /\ fault Sample.empty_world OpenWrite cache_path = None
  /\ fault Sample.empty_world WriteData cache_path = None
  /\ json_native (PList (List.map Document_dict docs)) = true
  /\ (call Sample.empty_world).1 = Ok docs
  /\ exists w2,
       call w1 = (Ok docs, w2)
       /\ effects w1 w2 = [CacheRead cache_path]
       /\ fs w2 = fs w1.
Proof.
  intros call cache_path w1 docs.
  assert ((call Sample.empty_world).1 = Ok docs) as H1 by (vm_compute; reflexivity).
  assert (json_native (PList (List.map Document_dict docs)) = true) as Hnat
    by (vm_compute; reflexivity).
  split; [reflexivity|]. split; [reflexivity|]. split; [reflexivity|].
  split; [exact Hnat|]. split; [exact H1|].
  apply (process_pdf_second_call_hits Sample.digest Sample.uuid_hex Sample.load_pdf
           Sample.message Sample.processor "%PDF hello" "scan.pdf" Sample.empty_world w1 docs).
  - reflexivity.
  - reflexivity.
  - reflexivity.
  - exact Hnat.
  - fold call. subst w1. rewrite <- H1. apply surjective_pairing.
  - discriminate.
Defined.

(** C2, counterexample.  When the operating system refuses the unlink, the
    call returns its chunks, logs the failed cleanup, and the scratch file
    it created is still on disk.  When the disk is full, the scratch file
    is opened, its write fails, and the call raises with the cut-short
    file still on disk, although no unlink is refused: no cleanup was
    attempted. *)
Lemma scratch_file_left_behind :
  (let w := Sample.world ∅ Sample.unlink_denied in
   let call := sample_process_pdf "%PDF hello" "scan.pdf" in
   In (ScratchCreated (sample_temp_path 0)) (effects w (call w).2)
   /\ fs (call w).2 !! sample_temp_path 0 = Some (Raw "%PDF hello")
   /\ exists docs, (call w).1 = Ok docs)
  /\ (let w := Sample.world ∅ Sample.disk_full in
      let call := sample_process_pdf "%PDF hello" "scan.pdf" in
      fault w Unlink (sample_temp_path 0) = None
      /\ (call w).1 = Raise Sample.no_space
      /\ effects w (call w).2 = [ScratchCreated (sample_temp_path 0)]
      /\ fs (call w).2 !! sample_temp_path 0 = Some Partial).
Proof.
  split.
  - vm_compute. split; [auto|]. split; [reflexivity|]. eexists. reflexivity.
  - vm_compute. repeat split; reflexivity.
Qed.

(** C2, witness: the empty world, where the write and the unlink succeed. *)
Lemma scratch_file_cleaned_witness :
  let w := Sample.empty_world in
  let call := sample_process_pdf "%PDF hello" "scan.pdf" in
  fault w WriteData (sample_temp_path 0) = None
  /\ fault w Unlink (sample_temp_path 0) = None
  /\ In (ScratchCreated (sample_temp_path 0)) (effects w (call w).2)
  /\ forall p, In (ScratchCreated p) (effects w (call w).2) -> fs (call w).2 !! p = None.
Proof.
  split; [reflexivity|]. split; [reflexivity|]. split; [vm_compute; auto|].
  apply (scratch_file_cleaned Sample.digest Sample.uuid_hex Sample.load_pdf
           Sample.message Sample.processor "%PDF hello" "scan.pdf" Sample.empty_world).
  - reflexivity.
  - reflexivity.
Defined.

(** C3, counterexample.  A chunk whose text holds a lone surrogate: the
    file can be opened, written and read, yet [json.dump] stops at the
    text, the save logs a warning and leaves the record cut short, and the
    reload gives [None].  A chunk whose metadata holds a tuple: the save
    and the reload succeed, and the tuple comes back as a list. *)
Lemma cache_roundtrip_loses_chunks :
  (let docs := [mkDocument Sample.lone_surrogate [("page", PInt 0)] None] in
   let w1 := (sample_save ".cache/k.json" docs Sample.empty_world).2 in
   (sample_save ".cache/k.json" docs Sample.empty_world).1 = Ok tt
   /\ logged Sample.empty_world w1 = [Log WARNING "保存到缓存失败: not serializable"]
   /\ fs w1 !! ".cache/k.json" = Some Partial
   /\ (sample_load ".cache/k.json" w1).1 = Ok None)
  /\ (let docs := [mkDocument "text" [("bbox", PTuple [PInt 0; PInt 9])] None] in
      let w1 := (sample_save ".cache/k.json" docs Sample.empty_world).2 in
      (sample_load ".cache/k.json" w1).1
      = Ok (Some [mkDocument "text" [("bbox", PList [PInt 0; PInt 9])] None])
      /\ (sample_load ".cache/k.json" w1).1 <> Ok (Some docs)).
Proof.
  split.
  - vm_compute. repeat split; reflexivity.
  - vm_compute. split; [reflexivity|discriminate].
Qed.

(** C3, witness: two chunks saved to and reloaded from an empty cache. *)
Lemma cache_roundtrip_witness :
  let docs := [mkDocument "first chunk" [("source", PStr "a.pdf"); ("page", PInt 0)] None;
               mkDocument "second chunk" [("source", PStr "a.pdf"); ("page", PInt 1)]
                          (Some "chunk-2")] in
  let w := Sample.empty_world in
  json_native (PList (List.map Document_dict docs)) = true
  /\ fault w OpenWrite ".cache/k.json" = None
  /\ fault w WriteData ".cache/k.json" = None
  /\ fault w OpenRead ".cache/k.json" = None
  /\ exists w1 w2,
       sample_save ".cache/k.json" docs w = (Ok tt, w1)
       /\ logged w w1 = []
       /\ sample_load ".cache/k.json" w1 = (Ok (Some docs), w2).
Proof.
  split; [vm_compute; reflexivity|]. split; [reflexivity|]. split; [reflexivity|].
  split; [reflexivity|].
  apply (cache_roundtrip Sample.message ".cache/k.json"); vm_compute; reflexivity.
Defined.

(** C4, counterexample.  The key is the digest of the bytes followed by the
    encoded name, so moving a byte from the end of the content to the start
    of the name changes both and keeps the key, whatever the digest: the
    record saved for the first input is what the second input loads. *)
Lemma cache_key_collision :
  ("ab" <> "a" /\ "c.pdf" <> "bc.pdf")
  /\ (forall md5 self,
         _get_cache_path md5 self "ab" "c.pdf" = _get_cache_path md5 self "a" "bc.pdf")
  /\ (let docs := [mkDocument "text of ab" [] None] in
      let w1 := (sample_save (sample_cache_path "ab" "c.pdf") docs Sample.empty_world).2 in
      (sample_load (sample_cache_path "a" "bc.pdf") w1).1 = Ok (Some docs)).
Proof.
  split; [split; discriminate|]. split; [reflexivity|]. vm_compute. reflexivity.
Qed.

(** C4, witness: two inputs whose concatenations differ and whose sample
    digests differ. *)
Lemma cache_key_sensitivity_witness :
  Sample.digest ("ab" +:+ "c.pdf") <> Sample.digest ("ab" +:+ "d.pdf")
  /\ sample_cache_path "ab" "c.pdf" <> sample_cache_path "ab" "d.pdf"
  /\ forall docs w,
       (sample_load (sample_cache_path "ab" "d.pdf")
          (sample_save (sample_cache_path "ab" "c.pdf") docs w).2).1
       = (sample_load (sample_cache_path "ab" "d.pdf") w).1.
Proof.
  split; [vm_compute; discriminate|].
  apply (cache_key_sensitivity Sample.digest Sample.message Sample.processor
           "ab" "c.pdf" "ab" "d.pdf").
  vm_compute. discriminate.
Defined.


(** C6, witness: raw bytes under the name "report.docx". *)
Lemma process_file_unsupported_witness :
  (BytesObject "PK" = BytesObject "PK" /\ Some "report.docx" = Some "report.docx"
   /\ "report.docx" <> "")
  /\ PyStr.endswith (PyStr.lower "report.docx") ".pdf" = false
  /\ PyStr.endswith (PyStr.lower "report.docx") ".txt" = false
  /\ exists w',
       sample_process_file (BytesObject "PK") (Some "report.docx") Sample.empty_world
       = (Ok (Text "不支持的文件类型: report.docx"), w')
       /\ fs w' = fs Sample.empty_world /\ io w' = io Sample.empty_world
       /\ uuid_seed w' = uuid_seed Sample.empty_world.
Proof.
  split; [repeat split; discriminate|]. split; [reflexivity|]. split; [reflexivity|].
  apply (process_file_unsupported Sample.digest Sample.uuid_hex Sample.load_pdf
           Sample.message Sample.processor (BytesObject "PK") (Some "report.docx")
           "PK" "report.docx" Sample.empty_world).
  - right. repeat split. discriminate.
  - reflexivity.
  - reflexivity.
Defined.

(** C7, witness: the name "notes.txt". *)
Lemma process_file_txt_hello_witness :
  PyStr.endswith "notes.txt" ".txt" = true
  /\ exists w',
       sample_process_file (BytesObject "hello") (Some "notes.txt") Sample.empty_world
       = (Ok (Text "hello"), w')
       /\ fs w' = fs Sample.empty_world /\ io w' = io Sample.empty_world
       /\ uuid_seed w' = uuid_seed Sample.empty_world.
Proof.
  split; [reflexivity|].
  apply (process_file_txt_hello Sample.digest Sample.uuid_hex Sample.load_pdf
           Sample.message Sample.processor "notes.txt" Sample.empty_world).
  reflexivity.
Defined.

(** C8, witness: raw bytes with the file name missing. *)
Lemma process_file_invalid_input_witness :
  (exists content, BytesObject "%PDF hello" = BytesObject content
                   /\ (@None string = None \/ @None string = Some ""))
  /\ exists w',
       sample_process_file (BytesObject "%PDF hello") None Sample.empty_world
       = (Raise (mkExn Exception
                   "处理文件失败: 参数错误：需要提供有效的文件对象或文件内容和文件名"), w')
       /\ fs w' = fs Sample.empty_world /\ io w' = io Sample.empty_world
       /\ uuid_seed w' = uuid_seed Sample.empty_world.
Proof.
  assert (exists content, BytesObject "%PDF hello" = BytesObject content
                          /\ (@None string = None \/ @None string = Some "")) as H
    by (exists "%PDF hello"; split; [reflexivity|left; reflexivity]).
  split; [exact H|].
  apply (process_file_invalid_input Sample.digest Sample.uuid_hex Sample.load_pdf
           Sample.message Sample.processor (BytesObject "%PDF hello") None
           Sample.empty_world).
  right. exact H.
Defined.


(** C9, counterexample.  Three cache records, the unlink of one of them
    refused.  [clear_cache] deletes the record that comes before it in the
    order of the directory listing, stops at the refused one, logs the
    failure and raises that very exception to the caller; the refused
    record stays, and so does the record after it, which nothing keeps
    from being deleted. *)
Lemma clear_cache_reraises_unlink_failure :
  let w := Sample.world {[".cache/a.json" := JsonText (JList []);
                          ".cache/b.json" := JsonText (JList []);
                          ".cache/c.json" := JsonText (JList [])]}
                        (Sample.unlink_denied_at ".cache/a.json") in
  let outcome := clear_cache Sample.message Sample.processor w in
  (glob_json ".cache" w).1 = Ok [".cache/c.json"; ".cache/a.json"; ".cache/b.json"]
  /\ fault w Unlink ".cache/b.json" = None
  /\ outcome.1 = Raise Sample.denied
  /\ logged w outcome.2 = [Log ERROR "清除缓存失败: permission denied"]
  /\ fs outcome.2 !! ".cache/c.json" = None
  /\ fs outcome.2 !! ".cache/a.json" = Some (JsonText (JList []))
  /\ fs outcome.2 !! ".cache/b.json" = Some (JsonText (JList [])).
Proof. vm_compute. repeat split; reflexivity. Qed.

(** C9, witness: two cache records and a scratch file with no fault, and
    the three records above with one unlink refused. *)
Lemma clear_cache_outcome_witness :
  (let w := Sample.world {[".cache/a.json" := JsonText (JList []);
                           ".cache/b.json" := Raw "garbage";
                           "temp/temp_0.pdf" := Raw "%PDF"]} Sample.no_fault in
   (forall p, glob_json_match ".cache" p = true -> fault w Unlink p = None)
   /\ exists w',
        clear_cache Sample.message Sample.processor w = (Ok tt, w')
        /\ fs w' !! ".cache/a.json" = None
        /\ fs w' !! ".cache/b.json" = None
        /\ fs w' !! "temp/temp_0.pdf" = Some (Raw "%PDF"))
  /\ (let w := Sample.world {[".cache/a.json" := JsonText (JList []);
                              ".cache/b.json" := JsonText (JList []);
                              ".cache/c.json" := JsonText (JList [])]}
                            (Sample.unlink_denied_at ".cache/a.json") in
      (exists p, glob_json_match ".cache" p = true /\ is_Some (fs w !! p)
                 /\ is_Some (fault w Unlink p))
      /\ exists done p todo e w',
           (glob_json ".cache" w).1 = Ok (done ++ p :: todo)%list
           /\ fault w Unlink p = Some e
           /\ clear_cache Sample.message Sample.processor w = (Raise e, w')
           /\ (forall q, In q done -> fs w' !! q = None)
           /\ (forall q, In q (p :: todo) -> fs w' !! q = fs w !! q)).
Proof.
  split.
  - intros w.
    assert (forall p, glob_json_match ".cache" p = true -> fault w Unlink p = None) as Hok
      by (intros p _; reflexivity).
    split; [exact Hok|].
    destruct (clear_cache_outcome Sample.message Sample.processor w) as [Hall _].
    destruct (Hall Hok) as (w' & Hrun & Hgone & Hkept).
    exists w'. split; [exact Hrun|].
    split; [apply Hgone; reflexivity|]. split; [apply Hgone; reflexivity|].
    etransitivity; [apply Hkept; reflexivity|]. vm_compute. reflexivity.
  - intros w.
    assert (exists p, glob_json_match ".cache" p = true /\ is_Some (fs w !! p)
                      /\ is_Some (fault w Unlink p)) as Hrefused.
    { exists ".cache/a.json". split; [reflexivity|]. split; vm_compute; eauto. }
    split; [exact Hrefused|].
    destruct (clear_cache_outcome Sample.message Sample.processor w) as [_ Hstop].
    destruct (Hstop Hrefused)
      as (done & p & todo & e & w' & Hglob & _ & Hp & Hrun & _ & _ & Hgone & Hrest & _).
    exists done, p, todo, e, w'.
    split; [exact Hglob|]. split; [exact Hp|]. split; [exact Hrun|].
    split; [exact Hgone|]. intros q Hq. apply (Hrest q Hq).
Defined.


(** ** The model on further inputs *)

Example upper_case_extension :
  PyStr.endswith (PyStr.lower "REPORT.PDF") ".pdf" = true.
Proof. reflexivity. Qed.

Example utf8_accepts_multibyte : PyStr.utf8_valid "不支持" = true.
Proof. reflexivity. Qed.

Example utf8_rejects_stray_byte :
  PyStr.utf8_valid (String (ascii_of_N 255) "") = false.
Proof. reflexivity. Qed.

Example utf8_rejects_lone_surrogate : PyStr.utf8_valid Sample.lone_surrogate = false.
Proof. reflexivity. Qed.

(** The dict of a chunk carries its [id], and a tuple is written as an
    array. *)
Example dict_of_a_chunk :
  to_json (Document_dict (mkDocument "text" [("bbox", PTuple [PInt 0; PInt 9])] None))
  = inr (JDict [("id", JNull);
                ("metadata", JDict [("bbox", JList [JInt 0; JInt 9])]);
                ("page_content", JStr "text");
                ("type", JStr "Document")]).
Proof. reflexivity. Qed.

(** The encoder stops at the first value it cannot write. *)
Example dump_stops_at_first_failure :
  to_json (PList [PInt 1; PStr Sample.lone_surrogate; PObject "<object>"])
  = inl UnicodeEncodeError
  /\ to_json (PList [PInt 1; PObject "<object>"; PStr Sample.lone_surrogate])
     = inl TypeError.
Proof. split; reflexivity. Qed.

(** A record with a key [self], and one whose [id] is a list, are
    rejected; a numeric [id] is taken as its decimal text. *)
Example constructor_rejects_self_key :
  Document_of_kwargs Sample.message (JDict [("page_content", JStr "text"); ("self", JInt 1)])
  = Raise (mkExn TypeError "invalid document").
Proof. reflexivity. Qed.

Example constructor_rejects_list_id :
  Document_of_kwargs Sample.message (JDict [("page_content", JStr "text"); ("id", JList [])])
  = Raise (mkExn ValidationError "invalid document").
Proof. reflexivity. Qed.

Example constructor_coerces_numeric_id :
  Document_of_kwargs Sample.message (JDict [("page_content", JStr "text"); ("id", JInt 42)])
  = Ok (mkDocument "text" [] (Some "42")).
Proof. vm_compute. reflexivity. Qed.

(** An upload gets the chunk texts joined, raw bytes get the chunks. *)
Example upload_pdf_returns_text :
  (sample_process_file (UploadedFile "%PDF hello" "scan.pdf") None Sample.empty_world).1
  = Ok (Text " hello").
Proof. vm_compute. reflexivity. Qed.

Example bytes_pdf_returns_chunks :
  (sample_process_file (BytesObject "%PDF hello") (Some "scan.pdf") Sample.empty_world).1
  = Ok (Chunks [mkDocument " hello"
                  [("source", PStr (sample_temp_path 0)); ("page", PInt 0)] None]).
Proof. vm_compute. reflexivity. Qed.

(** A parser failure reaches the caller of [process_file] wrapped, after
    the scratch file is removed. *)
Example parser_failure_propagates :
  let outcome :=
    sample_process_file (BytesObject "garbage") (Some "scan.pdf") Sample.empty_world in
  outcome.1 = Raise (mkExn Exception "处理文件失败: invalid pdf header")
  /\ io outcome.2 = [ScratchRemoved (sample_temp_path 0);
                     ParserInvoked (sample_temp_path 0);
                     ScratchCreated (sample_temp_path 0)]
  /\ fs outcome.2 = ∅.
Proof. vm_compute. repeat split; reflexivity. Qed.

Example txt_with_stray_byte_raises :
  (sample_process_file (BytesObject (String (ascii_of_N 255) "")) (Some "a.txt")
     Sample.empty_world).1
  = Raise (mkExn Exception "处理文件失败: invalid utf-8").
Proof. vm_compute. reflexivity. Qed.

(** A cache file holding an empty JSON object loads as the empty chunk
    list: the comprehension iterates over no key. *)
Example empty_object_loads_as_no_chunks :
  (sample_load ".cache/k.json"
     (Sample.world {[".cache/k.json" := JsonText (JDict [])]} Sample.no_fault)).1
  = Ok (Some []).
Proof. vm_compute. reflexivity. Qed.

(** A record cut short by a failed save is a miss, with a warning. *)
Example cut_short_record_is_a_miss :
  let w := Sample.world {[".cache/k.json" := Partial]} Sample.no_fault in
  (sample_load ".cache/k.json" w).1 = Ok None
  /\ logged w (sample_load ".cache/k.json" w).2
     = [Log WARNING "从缓存加载失败: unexpected end of json"].
Proof. vm_compute. split; reflexivity. Qed.

(** ** The further properties at concrete inputs *)

Abbreviation sample_clear_cache := (clear_cache Sample.message Sample.processor).
Abbreviation sample_clear_temp_files :=
  (clear_temp_files Sample.message Sample.processor).


(** X4, witness: two scratch files and a cache record, no fault. *)
Lemma clear_temp_files_outcome_witness :
  let w := Sample.world {["temp/temp_0.pdf" := Raw "%PDF";
                          "temp/temp_1.pdf" := Raw "%PDF hello";
                          ".cache/a.json" := JsonText (JList [])]} Sample.no_fault in
  (forall p, is_Some (entry_of "temp" p) -> fault w Unlink p = None)
  /\ exists w',
       sample_clear_temp_files w = (Ok tt, w')
       /\ fs w' !! "temp/temp_0.pdf" = None
       /\ fs w' !! "temp/temp_1.pdf" = None
       /\ fs w' !! ".cache/a.json" = Some (JsonText (JList [])).
Proof.
  intros w.
  assert (forall p, is_Some (entry_of "temp" p) -> fault w Unlink p = None) as Hok
    by (intros p _; reflexivity).
  split; [exact Hok|].
  destruct (clear_temp_files_outcome Sample.message Sample.processor w) as [Hall _].
  destruct (Hall Hok) as (w' & Hrun & Hgone & Hkept).
  exists w'. split; [exact Hrun|].
  split; [apply Hgone; vm_compute; eauto|]. split; [apply Hgone; vm_compute; eauto|].
  etransitivity; [apply Hkept; vm_compute; intros [? [=]]|]. vm_compute. reflexivity.
Defined.

(** X5, witness: a parser failure, which [_process_pdf] raises and
    [process_file] wraps. *)
Lemma process_file_raises_wrapped_witness :
  let w := Sample.empty_world in
  let cause := mkExn LibraryError "invalid pdf header" in
  let inner := sample_process_pdf "garbage" "scan.pdf" w in
  let body := process_file_body Sample.digest Sample.uuid_hex Sample.load_pdf
                Sample.message Sample.processor (BytesObject "garbage") (Some "scan.pdf") in
  inner.1 = Raise cause
  /\ body w
     = (Raise (mkExn Exception "处理文件失败: invalid pdf header"),
        add_log (Log ERROR "处理文件失败: invalid pdf header") inner.2).
Proof.
  intros w cause inner body.
  assert (inner.1 = Raise cause) as H1 by (vm_compute; reflexivity).
  split; [exact H1|].
  apply (process_file_raises_wrapped Sample.digest Sample.uuid_hex Sample.load_pdf
           Sample.message Sample.processor (BytesObject "garbage") (Some "scan.pdf") w).
  exists cause, inner.2. split; [|split; reflexivity].
  right. exists "garbage", "scan.pdf". split; [reflexivity|]. left.
  split; [reflexivity|]. fold inner. rewrite <- H1. apply surjective_pairing.
Defined.

(** X6, witness: an upload named "NOTES.TXT" holding multi-byte text. *)
Lemma process_file_txt_decodes_witness :
  (UploadedFile "不支持" "NOTES.TXT" = UploadedFile "不支持" "NOTES.TXT"
   \/ (UploadedFile "不支持" "NOTES.TXT" = BytesObject "不支持"
       /\ @None string = Some "NOTES.TXT" /\ "NOTES.TXT" <> ""))
  /\ PyStr.endswith (PyStr.lower "NOTES.TXT") ".txt" = true
  /\ exists w',
       sample_process_file (UploadedFile "不支持" "NOTES.TXT") None Sample.empty_world
       = (Ok (Text "不支持"), w')
       /\ fs w' = fs Sample.empty_world /\ io w' = io Sample.empty_world
       /\ uuid_seed w' = uuid_seed Sample.empty_world.
Proof.
  split; [left; reflexivity|]. split; [reflexivity|].
  exact (process_file_txt_decodes Sample.digest Sample.uuid_hex Sample.load_pdf
           Sample.message Sample.processor (UploadedFile "不支持" "NOTES.TXT") None
           "不支持" "NOTES.TXT" Sample.empty_world (or_introl eq_refl) eq_refl).
Defined.

(** X7, witness: raw bytes under the name "notes.txt". *)
Lemma process_file_non_pdf_is_pure_witness :
  let w := Sample.world {[".cache/a.json" := JsonText (JList [])]} Sample.no_fault in
  let w' := (sample_process_file (BytesObject "hello") (Some "notes.txt") w).2 in
  (forall content file_name,
      resolve_input (BytesObject "hello") (Some "notes.txt") = Ok (content, file_name) ->
      PyStr.endswith (PyStr.lower file_name) ".pdf" = false)
  /\ fs w' = fs w /\ io w' = io w /\ uuid_seed w' = uuid_seed w.
Proof.
  intros w w'.
  assert (forall content file_name,
             resolve_input (BytesObject "hello") (Some "notes.txt") = Ok (content, file_name) ->
             PyStr.endswith (PyStr.lower file_name) ".pdf" = false) as H
    by (intros content file_name [= <- <-]; reflexivity).
  split; [exact H|].
  exact (process_file_non_pdf_is_pure Sample.digest Sample.uuid_hex Sample.load_pdf
           Sample.message Sample.processor (BytesObject "hello") (Some "notes.txt") w H).
Defined.

(** X8, witness: the same PDF as an upload and as raw bytes. *)
Lemma process_file_upload_like_bytes_witness :
  "scan.pdf" <> ""
  /\ (sample_process_file (BytesObject "%PDF hello") (Some "scan.pdf") Sample.empty_world).1
     = Ok (Chunks [mkDocument " hello"
                     [("source", PStr (sample_temp_path 0)); ("page", PInt 0)] None])
  /\ (sample_process_file (UploadedFile "%PDF hello" "scan.pdf") (Some "other.txt")
        Sample.empty_world).1
     = Ok (Text " hello").
Proof.
  assert ("scan.pdf" <> "") as Hne by discriminate.
  split; [exact Hne|]. split; [vm_compute; reflexivity|].
  etransitivity.
  - exact (process_file_upload_like_bytes Sample.digest Sample.uuid_hex Sample.load_pdf
             Sample.message Sample.processor "%PDF hello" "scan.pdf" (Some "other.txt")
             Sample.empty_world Hne).
  - vm_compute. reflexivity.
Defined.

(** X9, witness: a foreign file beside the cache and the scratch file. *)
Lemma process_pdf_frame_witness :
  let w := Sample.world {["notes/keep.txt" := Raw "keep"]} Sample.no_fault in
  "notes/keep.txt" <> sample_cache_path "%PDF hello" "scan.pdf"
  /\ "notes/keep.txt" <> sample_temp_path 0
  /\ fs (sample_process_pdf "%PDF hello" "scan.pdf" w).2 !! "notes/keep.txt"
     = Some (Raw "keep").
Proof.
  intros w.
  assert ("notes/keep.txt" <> sample_cache_path "%PDF hello" "scan.pdf") as Hc
    by (vm_compute; discriminate).
  assert ("notes/keep.txt" <> sample_temp_path 0) as Ht by (vm_compute; discriminate).
  split; [exact Hc|]. split; [exact Ht|].
  etransitivity.
  - exact (process_pdf_frame Sample.digest Sample.uuid_hex Sample.load_pdf Sample.message
             Sample.processor "%PDF hello" "scan.pdf" w "notes/keep.txt" Hc Ht).
  - vm_compute. reflexivity.
Defined.



(** X12, witness: the cache cleared after one PDF was processed. *)
Lemma clear_cache_invalidates_witness :
  let w := (sample_process_pdf "%PDF hello" "scan.pdf" Sample.empty_world).2 in
  let cache_path := sample_cache_path "%PDF hello" "scan.pdf" in
  let out := sample_clear_cache w in
  PyStr.contains_char "/" (Sample.digest ("%PDF hello" +:+ "scan.pdf")) = false
  /\ is_Some (fs w !! cache_path)
  /\ out.1 = Ok tt
  /\ fs out.2 !! cache_path = None
  /\ sample_load cache_path out.2 = (Ok None, out.2).
Proof.
  intros w cache_path out.
  assert (out.1 = Ok tt) as H1 by (vm_compute; reflexivity).
  split; [vm_compute; reflexivity|]. split; [vm_compute; eauto|]. split; [exact H1|].
  apply (clear_cache_invalidates Sample.digest Sample.message Sample.processor
           "%PDF hello" "scan.pdf" w out.2).
  - vm_compute. reflexivity.
  - fold out. rewrite <- H1. apply surjective_pairing.
Defined.

(** X13, witness: a record whose second item is a number. *)
Lemma load_from_cache_all_or_nothing_witness :
  let items := [JDict [("id", JNull); ("metadata", JDict []);
                       ("page_content", JStr "first chunk"); ("type", JStr "Document")];
                JInt 3] in
  let w := Sample.world {[".cache/k.json" := JsonText (JList items)]} Sample.no_fault in
  fs w !! ".cache/k.json" = Some (JsonText (JList items))
  /\ fault w OpenRead ".cache/k.json" = None
  /\ In (JInt 3) items
  /\ Document_of_kwargs Sample.message (JInt 3)
     = Raise (mkExn TypeError "invalid document")
  /\ exists e' w',
       sample_load ".cache/k.json" w = (Ok None, w')
       /\ logged w w' = [Log WARNING ("从缓存加载失败: " +:+ exn_str e')].
Proof.
  intros items w.
  assert (fs w !! ".cache/k.json" = Some (JsonText (JList items))) as Hf
    by (vm_compute; reflexivity).
  assert (In (JInt 3) items) as Hin by (right; left; reflexivity).
  split; [exact Hf|]. split; [reflexivity|]. split; [exact Hin|]. split; [reflexivity|].
  exact (load_from_cache_all_or_nothing Sample.message ".cache/k.json" w items (JInt 3)
           (mkExn TypeError "invalid document") Hf eq_refl Hin eq_refl).
Defined.

(** X14, witness: a PDF with text given twice to [process_file]. *)
Lemma process_file_pdf_second_call_hits_witness :
  let call := sample_process_file (BytesObject "%PDF hello") (Some "scan.pdf") in
  let cache_path := sample_cache_path "%PDF hello" "scan.pdf" in
  let w1 := (call Sample.empty_world).2 in
  let docs :=
    [mkDocument " hello" [("source", PStr (sample_temp_path 0)); ("page", PInt 0)] None] in
  PyStr.endswith (PyStr.lower "scan.pdf") ".pdf" = true
  /\ fault Sample.empty_world OpenRead cache_path = None
  /\ fault Sample.empty_world OpenWrite cache_path = None
  /\ fault Sample.empty_world WriteData cache_path = None
  /\ json_native (PList (List.map Document_dict docs)) = true
  /\ (call Sample.empty_world).1 = Ok (Chunks docs)
  /\ exists w2,
       call w1 = (Ok (Chunks docs), w2)
       /\ effects w1 w2 = [CacheRead cache_path]
       /\ fs w2 = fs w1.
Proof.
  intros call cache_path w1 docs.
  assert ((call Sample.empty_world).1 = Ok (Chunks docs)) as H1 by (vm_compute; reflexivity).
  assert (json_native (PList (List.map Document_dict docs)) = true) as Hnat
    by (vm_compute; reflexivity).
  split; [reflexivity|]. split; [reflexivity|]. split; [reflexivity|].
  split; [reflexivity|]. split; [exact Hnat|]. split; [exact H1|].
  apply (process_file_pdf_second_call_hits Sample.digest Sample.uuid_hex Sample.load_pdf
           Sample.message Sample.processor "%PDF hello" "scan.pdf" Sample.empty_world w1 docs).
  - reflexivity.
  - reflexivity.
  - reflexivity.
  - reflexivity.
  - exact Hnat.
  - fold call. subst w1. rewrite <- H1. apply surjective_pairing.
  - discriminate.
Defined.
